(** * amazon-uploader scripts: subtitles_monitor.py and gdrive_migration.py

    A shallow embedding of the two scripts under [scripts/].  A Python [str]
    is held as the [string] of its UTF-8 bytes; the separators, dots, digits
    and letters the scripts look for are single bytes, so searching, cutting
    and joining act on the bytes as Python acts on the characters.  The text
    of the names file, which Python cuts into lines and strips of white
    space, is held as the list of its code points.  Python integers are [Z],
    [None]-able values are [option], exceptions are an explicit result type,
    and everything a script does to the outside world (log records, provider
    queries, file writes, uploads, shell commands, printed lines) is
    appended to a trace that the monad [M] threads through the code. *)

From Stdlib Require Import ZArith List String Ascii Bool Lia.
From Stdlib Require Import Numbers.DecimalString.
Import ListNotations.

Open Scope string_scope.
Open Scope Z_scope.

(** ** Python built-ins used by the scripts *)

Module Py.

Definition newline : ascii := "010"%char.
Definition slash : ascii := "/"%char.
Definition dot : ascii := "."%char.

Definition is_lower (c : ascii) : bool :=
  let n := nat_of_ascii c in ((97 <=? n) && (n <=? 122))%nat.

Definition is_upper (c : ascii) : bool :=
  let n := nat_of_ascii c in ((65 <=? n) && (n <=? 90))%nat.

Definition to_upper (c : ascii) : ascii :=
  if is_lower c then ascii_of_nat (nat_of_ascii c - 32) else c.

Definition to_lower (c : ascii) : ascii :=
  if is_upper c then ascii_of_nat (nat_of_ascii c + 32) else c.

(** Truthiness of the values the scripts test with [if]. *)
Definition truthy_str (s : string) : bool := negb (s =? "")%string.

Definition truthy_int (n : Z) : bool := negb (n =? 0).

Definition truthy_opt {A} (t : A -> bool) (o : option A) : bool :=
  match o with Some a => t a | None => false end.

(** [s.lstrip(chars)]: drop leading characters that occur in [chars]. *)
Fixpoint mem_char (c : ascii) (chars : string) : bool :=
  match chars with
  | EmptyString => false
  | String d r => Ascii.eqb c d || mem_char c r
  end.

Fixpoint lstrip_chars (chars s : string) : string :=
  match s with
  | EmptyString => EmptyString
  | String c r => if mem_char c chars then lstrip_chars chars r else s
  end.

(** [s.startswith(p)] is [String.prefix p s]; [s.endswith(p)] compares the
    last [len(p)] characters. *)
Definition startswith (p s : string) : bool := String.prefix p s.

Definition endswith (p s : string) : bool :=
  (String.length p <=? String.length s)%nat &&
  (substring (String.length s - String.length p) (String.length p) s =? p)%string.

(** [str(n)] for an integer, and ['{}'.format(v)] for a value that may be
    [None]. *)
Definition str_int (n : Z) : string := NilZero.string_of_int (Z.to_int n).

Definition str_opt_int (o : option Z) : string :=
  match o with Some n => str_int n | None => "None" end.

Fixpoint zeros (k : nat) : string :=
  match k with O => EmptyString | S k' => String "0" (zeros k') end.

(** [format(n, '0w')] for an integer: the sign first, then zeros up to the
    minimum width [w], then the digits; never truncated. *)
Definition format_zero_padded (w : nat) (n : Z) : string :=
  let sign := if n <? 0 then "-" else "" in
  let digits := str_int (Z.abs n) in
  sign ++ zeros (w - String.length sign - String.length digits) ++ digits.

(** Whether a text holds ASCII characters only: every byte is below 128. *)
Fixpoint is_ascii (s : string) : bool :=
  match s with
  | EmptyString => true
  | String c r => (nat_of_ascii c <? 128)%nat && is_ascii r
  end.

(** [s.title()] on ASCII text: a letter is upper-cased when it follows a
    character that is no letter and lower-cased when it follows a letter.
    The cased characters of ASCII are its letters. *)
Fixpoint title_from (previous_is_cased : bool) (s : string) : string :=
  match s with
  | EmptyString => EmptyString
  | String c r =>
      let c' :=
        if is_lower c then (if previous_is_cased then c else to_upper c)
        else if is_upper c then (if previous_is_cased then to_lower c else c)
        else c in
      String c' (title_from (is_lower c || is_upper c) r)
  end.

Definition title (s : string) : string := title_from false s.

(** Title case, said without [title]: [T] is as long as [t]; a character
    of [t] that is no letter stands unchanged in [T]; a letter stands in
    [T] as the same letter of the alphabet, in upper case where no letter
    precedes it in [t] and in lower case where one does. *)
Definition is_letter (c : ascii) : bool := is_lower c || is_upper c.

Definition same_letter (c d : ascii) : bool :=
  (nat_of_ascii c mod 32 =? nat_of_ascii d mod 32)%nat.

Definition follows_letter (t : string) (i : nat) : bool :=
  match i with
  | O => false
  | S j => match String.get j t with Some p => is_letter p | None => false end
  end.

Definition title_cased (t T : string) : Prop :=
  String.length T = String.length t
  /\ forall i c d,
       String.get i t = Some c -> String.get i T = Some d ->
       if is_letter c
       then same_letter c d = true
            /\ is_letter d = true
            /\ (if follows_letter t i then is_lower d else is_upper d) = true
       else d = c.

(** [s.rfind(c)] for a one-character needle: the last index, or -1. *)
Fixpoint rfind_from (i : Z) (c : ascii) (s : string) : Z :=
  match s with
  | EmptyString => -1
  | String d r =>
      let j := rfind_from (i + 1) c r in
      if 0 <=? j then j else if Ascii.eqb d c then i else -1
  end.

Definition rfind (c : ascii) (s : string) : Z := rfind_from 0 c s.

(** Slices [s[:k]], [s[k:]] and [s[i:j]] for indices that are not negative. *)
Definition slice_to (k : Z) (s : string) : string :=
  substring 0 (Z.to_nat k) s.

Definition slice_from (k : Z) (s : string) : string :=
  substring (Z.to_nat k) (String.length s - Z.to_nat k) s.

Definition slice (i j : Z) (s : string) : string :=
  substring (Z.to_nat i) (Z.to_nat j - Z.to_nat i) s.

Fixpoint all_dots (s : string) : bool :=
  match s with
  | EmptyString => true
  | String c r => Ascii.eqb c dot && all_dots r
  end.

(** [os.path.splitext] (posixpath over [genericpath._splitext]): the
    extension starts at the last dot of the last component, unless only
    dots precede it in that component. *)
Definition splitext (p : string) : string * string :=
  let sepIndex := rfind slash p in
  let dotIndex := rfind dot p in
  if (sepIndex <? dotIndex) && negb (all_dots (slice (sepIndex + 1) dotIndex p))
  then (slice_to dotIndex p, slice_from dotIndex p)
  else (p, EmptyString).

(** [os.path.basename]: what follows the last separator. *)
Definition basename (p : string) : string := slice_from (rfind slash p + 1) p.

(** [os.path.join(a, *p)] (posixpath): an absolute component restarts the
    path; a separator is inserted unless the path so far is empty or
    already ends with one. *)
Definition join2 (path b : string) : string :=
  if startswith "/" b then b
  else if (path =? "")%string || endswith "/" path then path ++ b
  else path ++ "/" ++ b.

Definition path_join (a : string) (p : list string) : string :=
  fold_left join2 p a.

(** [s.split(sep)] for a non-empty separator: cut at every occurrence, left
    to right, occurrences not overlapping.  [skip] counts the characters of
    a separator just matched that are still to be passed over. *)
Fixpoint split_from (sep : string) (skip : nat) (cur s : string)
  : list string :=
  match s with
  | EmptyString => [cur]
  | String c r =>
      match skip with
      | S k => split_from sep k cur r
      | O =>
          if String.prefix sep s
          then cur :: split_from sep (String.length sep - 1) EmptyString r
          else split_from sep O (cur ++ String c EmptyString) r
      end
  end.

Definition split (sep s : string) : list string :=
  split_from sep O EmptyString s.

(** [l[i]] on a Python list: [None] here stands for [IndexError]. *)
Definition item {A} (l : list A) (i : nat) : option A := nth_error l i.

(** A component that [join2] appends behind one separator: it is not empty
    and neither starts nor ends with the separator. *)
Definition plain_component (s : string) : bool :=
  truthy_str s && negb (startswith "/" s) && negb (endswith "/" s).

(** The two decimal digits [NN] of a number below one hundred. *)
Definition digit (d : Z) : ascii := ascii_of_nat (48 + Z.to_nat d).

Definition two_digits (n : Z) : string :=
  String (digit (n / 10)) (String (digit (n mod 10)) EmptyString).

(** [sep] matches at no position of [s ++ tail] that lies within [s]. *)
Fixpoint no_match_within (sep s tail : string) : bool :=
  match s with
  | EmptyString => true
  | String c r =>
      negb (String.prefix sep (s ++ tail)) && no_match_within sep r tail
  end.

(** [sep in s], for a separator that is not empty. *)
Definition occurs (sep s : string) : bool :=
  negb (no_match_within sep s EmptyString).

End Py.

(** ** The text of a file: code points, lines and white space *)

Module Text.

Definition text : Type := list Z.

Definition LF : Z := 10.
Definition CR : Z := 13.

(** [str.isspace] on one character, which is what [str.strip] removes:
    U+0009..U+000D, U+001C..U+0020, U+0085, U+00A0, U+1680,
    U+2000..U+200A, U+2028, U+2029, U+202F, U+205F and U+3000. *)
Definition is_space (c : Z) : bool :=
  (9 <=? c) && (c <=? 13) || (28 <=? c) && (c <=? 32)
  || (c =? 133) || (c =? 160) || (c =? 5760)
  || (8192 <=? c) && (c <=? 8202)
  || (c =? 8232) || (c =? 8233) || (c =? 8239) || (c =? 8287)
  || (c =? 12288).

(** [s.lstrip()] and [s.rstrip()] without argument, and [s.strip()]. *)
Fixpoint lstrip (s : text) : text :=
  match s with
  | [] => []
  | c :: r => if is_space c then lstrip r else s
  end.

Fixpoint rstrip (s : text) : text :=
  match s with
  | [] => []
  | c :: r =>
      match rstrip r with
      | [] => if is_space c then [] else [c]
      | r' => c :: r'
      end
  end.

Definition strip (s : text) : text := lstrip (rstrip s).

(** [f.readline()] on the text that is still unread, for a file opened in
    text mode with the default [newline=None]: a line ends at a line feed,
    at a carriage return or at a carriage return followed by a line feed,
    and each of the three is handed over as one line feed.  The result is
    the next line (the last line may lack its line feed) and the text after
    it; at end of file the line is empty. *)
Fixpoint readline (s : text) : text * text :=
  match s with
  | [] => ([], [])
  | c :: rest =>
      if c =? LF then ([LF], rest)
      else if c =? CR then
        ([LF],
         match rest with
         | d :: rest' => if d =? LF then rest' else rest
         | [] => rest
         end)
      else let (l, r) := readline rest in (c :: l, r)
  end.

(** The lines of a text file, in file order, each as [readline] returns it. *)
Fixpoint file_lines (s : text) : list text :=
  match s with
  | [] => []
  | c :: rest =>
      if c =? LF then [LF] :: file_lines rest
      else if c =? CR then
        [LF] :: match rest with
                | d :: rest' =>
                    if d =? LF then file_lines rest' else file_lines rest
                | [] => []
                end
      else match file_lines rest with
           | [] => [[c]]
           | l :: ls => (c :: l) :: ls
           end
  end.

(** The text as Python holds it once the line ends are translated. *)
Fixpoint universal_newlines (s : text) : text :=
  match s with
  | [] => []
  | c :: rest =>
      if c =? CR then
        LF :: match rest with
              | d :: rest' =>
                  if d =? LF then universal_newlines rest'
                  else universal_newlines rest
              | [] => []
              end
      else c :: universal_newlines rest
  end.

(** A line as the loop is handed it: it is not empty, it holds a line feed
    as its last character or not at all, and it holds no carriage return. *)
Definition well_cut (line : text) : Prop :=
  exists body,
    (line = (body ++ [LF])%list \/ (line = body /\ body <> []))
    /\ ~ In LF body /\ ~ In CR body.

(** The UTF-8 bytes of one character and of a text. *)
Definition byte (n : Z) : ascii := ascii_of_nat (Z.to_nat n).

Definition utf8_char (c : Z) : string :=
  if c <? 128 then String (byte c) EmptyString
  else if c <? 2048 then
    String (byte (192 + c / 64)) (String (byte (128 + c mod 64)) EmptyString)
  else if c <? 65536 then
    String (byte (224 + c / 4096))
      (String (byte (128 + (c / 64) mod 64))
         (String (byte (128 + c mod 64)) EmptyString))
  else
    String (byte (240 + c / 262144))
      (String (byte (128 + (c / 4096) mod 64))
         (String (byte (128 + (c / 64) mod 64))
            (String (byte (128 + c mod 64)) EmptyString))).

Fixpoint utf8_encode (s : text) : string :=
  match s with
  | [] => EmptyString
  | c :: r => utf8_char c ++ utf8_encode r
  end.

(** The text whose characters are the bytes of an ASCII literal. *)
Definition of_ascii (s : string) : text :=
  map (fun c => Z.of_nat (nat_of_ascii c)) (list_ascii_of_string s).

End Text.

(** ** subtitles_monitor.py, lines 136-144: the newest-first window *)

Module LogWindow.
Import Py Text.

(** [RESULTS_LIMIT and len(original_paths_list) > RESULTS_LIMIT] *)
Definition over_limit (limit : option Z) (l : list string) : bool :=
  truthy_opt truthy_int limit &&
  match limit with
  | Some n => Z.of_nat (List.length l) >? n
  | None => false
  end.

(** [original_path = line.strip()], as the string that holds it. *)
Definition entry_of (line : text) : string := utf8_encode (strip line).

(** One pass of the [while line != ''] body: strip, [insert(0, ...)], and
    [pop()] the tail when the list has grown beyond the limit. *)
Definition push_line (limit : option Z) (line : text) (l : list string)
  : list string :=
  let l1 := entry_of line :: l in
  if over_limit limit l1 then removelast l1 else l1.

(** The loop itself.  [line] is the line read last, [file] the unread text.
    Each pass consumes at least one character, so [fuel] bounds the passes. *)
Fixpoint read_loop (fuel : nat) (limit : option Z) (line file : text)
  (original_paths_list : list string) : list string :=
  match fuel with
  | O => original_paths_list
  | S fuel' =>
      match line with
      | [] => original_paths_list
      | _ :: _ =>
          let l := push_line limit line original_paths_list in
          let (line', file') := readline file in
          read_loop fuel' limit line' file' l
      end
  end.

Definition read_window (limit : option Z) (content : text) : list string :=
  let (line, file) := readline content in
  read_loop (S (List.length content)) limit line file [].

(** What the window is meant to be: everything when the limit is falsy,
    otherwise the first [limit] entries of the newest-first list. *)
Definition window (limit : option Z) (newest_first : list string)
  : list string :=
  match limit with
  | None => newest_first
  | Some n => if n =? 0 then newest_first
              else firstn (Z.to_nat n) newest_first
  end.

(** The lines still to be handled when the loop holds [line] and the unread
    text is [file]. *)
Definition pending (line file : text) : list text :=
  match line with
  | [] => []
  | _ :: _ => line :: file_lines file
  end.

End LogWindow.

(** ** Exceptions, results and the trace monad *)

Module Eff.

(** The exception classes the scripts raise or catch.  [LibraryError] stands
    for any other subclass of [Exception] a collaborator may raise;
    [KeyboardInterrupt] is a [BaseException] that is not an [Exception]. *)
Inductive exn : Type :=
| FileNotFoundError | NotADirectoryError | OSError
| ValueError | TypeError | AttributeError | IndexError
| LibraryError | KeyboardInterrupt.

(** [isinstance(e, OSError)], [isinstance(e, ValueError)] and
    [isinstance(e, Exception)]. *)
Definition is_OSError (e : exn) : bool :=
  match e with
  | OSError | FileNotFoundError | NotADirectoryError => true
  | _ => false
  end.

Definition is_ValueError (e : exn) : bool :=
  match e with ValueError => true | _ => false end.

Definition is_Exception (e : exn) : bool :=
  match e with KeyboardInterrupt => false | _ => true end.

Definition any_exception (e : exn) : bool := true.

Inductive result (A : Type) : Type :=
| Ok (a : A)
| Raise (e : exn).
Arguments Ok {A} a.
Arguments Raise {A} e.

Inductive level : Type := DEBUG | INFO | ERROR.

(** What a script does to the outside world, in the order it happens.
    [Download], [WriteFile], [Upload] and [Shell] record the call, whatever
    its outcome. *)
Inductive event : Type :=
| Log (lvl : level) (msg : string)
| LogException (msg : string) (e : exn)
| ConfigureCache
| Download (video_name language : string) (providers : option (list string))
| WriteFile (path content : string)
| Upload (path : string)
| Shell (command : string)
| Print (line : string).

Definition trace : Type := list event.

Definition M (A : Type) : Type := trace -> result A * trace.

Definition ret {A} (a : A) : M A := fun tr => (Ok a, tr).

Definition bind {A B} (m : M A) (k : A -> M B) : M B :=
  fun tr =>
    match m tr with
    | (Ok a, tr') => k a tr'
    | (Raise e, tr') => (Raise e, tr')
    end.

Definition raise {A} (e : exn) : M A := fun tr => (Raise e, tr).

Definition emit (ev : event) : M unit := fun tr => (Ok tt, (tr ++ [ev])%list).

(** A pure computation that may raise. *)
Definition lift {A} (r : result A) : M A := fun tr => (r, tr).

(** A collaborator call: recorded, then it returns or raises. *)
Definition call (ev : event) (outcome : option exn) : M unit :=
  fun tr =>
    match outcome with
    | None => (Ok tt, (tr ++ [ev])%list)
    | Some e => (Raise e, (tr ++ [ev])%list)
    end.

(** [try: m except C as e: handler(e)], [C] given by its [isinstance] test. *)
Definition try_except {A} (m : M A) (catches : exn -> bool)
  (handler : exn -> M A) : M A :=
  fun tr =>
    match m tr with
    | (Ok a, tr') => (Ok a, tr')
    | (Raise e, tr') => if catches e then handler e tr' else (Raise e, tr')
    end.

Definition rbind {A B} (r : result A) (k : A -> result B) : result B :=
  match r with Ok a => k a | Raise e => Raise e end.

Definition log (lvl : level) (msg : string) : M unit := emit (Log lvl msg).

End Eff.

Declare Scope py_scope.
Delimit Scope py_scope with py.
Notation "x <- m ;; k" := (Eff.bind m (fun x => k))
  (at level 61, m at next level, right associativity) : py_scope.
Notation "m ;; k" := (Eff.bind m (fun _ => k))
  (at level 61, right associativity) : py_scope.
Notation "x <-- r ;; k" := (Eff.rbind r (fun x => k))
  (at level 61, r at next level, right associativity) : py_scope.

(** ** subtitles_monitor.py *)

Module SubtitlesMonitor.
Import Py Eff.
Local Open Scope py_scope.

(** What [guessit] returns, as far as the script reads it with [guess.get]:
    an absent key reads as [None]. *)
Record Guess : Type := mkGuess {
  g_title : option string;
  g_episode : option Z;
  g_season : option Z;
  g_year : option Z
}.

(** [babelfish.Language], identified by its three-letter code. *)
Record Language : Type := mkLanguage { alpha3 : string }.

Definition language_eqb (a b : Language) : bool :=
  (alpha3 a =? alpha3 b)%string.

(** [subliminal.Video] and [subliminal.Subtitle]; [sub_str] is the text
    ['{}'.format(subtitle)] produces. *)
Record Video : Type := mkVideo { video_name : string }.

Record Subtitle : Type := mkSubtitle {
  sub_content : option string;
  sub_language : Language;
  sub_str : string
}.

(** The configuration module [clouduploader.config], the file system and the
    external collaborators.  The script only calls them; their behaviour is a
    parameter of every definition below.  [read_text] is the decoded text of
    a file; [unicode_title] is [str.title] on text that is not ASCII, whose
    case tables belong to the interpreter. *)
Record Env : Type := mkEnv {
  ORIGINAL_NAMES_LOG : string;
  CLOUD_TV_PATH : string;
  CLOUD_MOVIE_PATH : string;
  isfile : string -> bool;
  isdir : string -> bool;
  read_text : string -> Text.text;
  write_bytes : string -> string -> option exn;
  guessit : string -> Guess;
  format_show : option string -> result string;
  fromguess : string -> Guess -> result Video;
  download_best_subtitles :
    Video -> Language -> option (list string) -> result (list (list Subtitle));
  get_subtitle_path : string -> Language -> string;
  upload_file : string -> option exn;
  unicode_title : string -> string
}.

Definition MEDIA_ROOT_PATH : string := "/mnt/vdb/plexdrive/gdrive_decrypted".
Definition TEMP_PATH : string := "/tmp".
Definition RESULTS_LIMIT : option Z := Some 300.
Definition SUBTITLES_EXTENSION : string := ".srt".
Definition LANGUAGE_EXTENSIONS : list string := [".he"; ".en"].

Definition heb : Language := mkLanguage "heb".
Definition eng : Language := mkLanguage "eng".

(** [PROVIDERS_MAP.get(language)] *)
Definition PROVIDERS_MAP_get (language : Language) : option (list string) :=
  if language_eqb language heb then Some ["thewiz"; "subscenter"]
  else None.

(** [babelfish.Language.fromalpha2] on the two-letter codes the script is
    configured with; the library raises on a code it cannot convert. *)
Definition fromalpha2 (code : string) : result Language :=
  if (code =? "he")%string then Ok heb
  else if (code =? "en")%string then Ok eng
  else Raise LibraryError.

(** ['{:02}'.format(v)]: [None] supports no format specification. *)
Definition format_02 (v : option Z) : result string :=
  match v with
  | Some n => Ok (format_zero_padded 2 n)
  | None => Raise TypeError
  end.

(** [s.title()] on any text. *)
Definition str_title (env : Env) (s : string) : string :=
  if is_ascii s then title s else unicode_title env s.

(** [title.title()] on a value that may be [None]. *)
Definition title_method (env : Env) (t : option string) : result string :=
  match t with
  | Some s => Ok (str_title env s)
  | None => Raise AttributeError
  end.

(** Lines 148-166: the current path of a video from its original path. *)
Definition reconstruct (env : Env) (original_path : string) : result string :=
  let guess := guessit env original_path in
  let extension := snd (splitext original_path) in
  let title := g_title guess in
  let episode := g_episode guess in
  if truthy_opt truthy_int episode then
    let season := g_season guess in
    let base_dir := path_join MEDIA_ROOT_PATH [CLOUD_TV_PATH env] in
    title <-- format_show env title ;;
    season_dir <-- format_02 season ;;
    s <-- format_02 season ;;
    e <-- format_02 episode ;;
    Ok (path_join base_dir
          [title; "Season " ++ season_dir;
           title ++ " - S" ++ s ++ "E" ++ e ++ extension])
  else
    title <-- title_method env title ;;
    let year := g_year guess in
    let base_dir := path_join MEDIA_ROOT_PATH [CLOUD_MOVIE_PATH env] in
    Ok (path_join base_dir
          [title ++ " (" ++ str_opt_int year ++ ")";
           title ++ " (" ++ str_opt_int year ++ ")" ++ extension]).

(** Lines 172-175: the languages whose subtitles file is missing. *)
Fixpoint find_gaps (env : Env) (video_base_path : string)
  (extensions : list string) (languages_list : list Language)
  : M (list Language) :=
  match extensions with
  | [] => ret languages_list
  | language_extension :: rest =>
      if negb (isfile env
                 (video_base_path ++ language_extension ++ SUBTITLES_EXTENSION))
      then
        language <- lift (fromalpha2 (lstrip_chars "." language_extension)) ;;
        find_gaps env video_base_path rest (languages_list ++ [language])%list
      else find_gaps env video_base_path rest languages_list
  end.

(** Lines 85-88: the first subtitle of the first value, if there is one. *)
Definition best_subtitle (values : list (list Subtitle)) : option Subtitle :=
  match values with
  | [] => None
  | current_result :: _ =>
      match current_result with
      | [] => None
      | subtitle :: _ => Some subtitle
      end
  end.

(** Lines 98-99: where the content of a subtitle is saved. *)
Definition scratch_path (env : Env) (video : Video) (subtitle : Subtitle)
  : string :=
  path_join TEMP_PATH
    [basename (get_subtitle_path env (video_name video)
                 (sub_language subtitle))].

(** Lines 66-115. *)
Definition find_file_subtitles (env : Env)
  (original_path current_path : string) (language : Language)
  : M (option string) :=
  log INFO ("Searching " ++ alpha3 language ++ " subtitles for file: "
            ++ original_path) ;;
  try_except
    (video <- lift (fromguess env current_path (guessit env original_path)) ;;
     let providers := PROVIDERS_MAP_get language in
     emit (Download (video_name video) (alpha3 language) providers) ;;
     values <- lift (download_best_subtitles env video language providers) ;;
     match best_subtitle values with
     | None =>
         log INFO "No subtitles were found. Moving on..." ;;
         ret None
     | Some subtitles_result =>
         log INFO "Subtitles found! Saving files..." ;;
         match sub_content subtitles_result with
         | None =>
             log DEBUG ("Skipping subtitle " ++ sub_str subtitles_result
                        ++ ": no content") ;;
             ret None
         | Some content =>
             let subtitles_path := scratch_path env video subtitles_result in
             log INFO ("Saving " ++ sub_str subtitles_result ++ " to: "
                       ++ subtitles_path) ;;
             try_except
               (call (WriteFile subtitles_path content)
                     (write_bytes env subtitles_path content) ;;
                log INFO ("Uploading " ++ subtitles_path) ;;
                try_except
                  (call (Upload subtitles_path) (upload_file env subtitles_path))
                  is_Exception
                  (fun e => emit (LogException
                                    ("Failed to upload file: " ++ subtitles_path)
                                    e)))
               is_OSError
               (fun _ => log ERROR ("Failed to save subtitles in path: "
                                    ++ subtitles_path)) ;;
             ret (Some subtitles_path)
         end
     end)
    is_ValueError
    (fun _ => log INFO "Not a video file. Moving on..." ;; ret None).

(** [subtitles_map[key] += 1] on a [defaultdict(int)], kept in insertion
    order. *)
Fixpoint increment (key : string) (subtitles_map : list (string * Z))
  : list (string * Z) :=
  match subtitles_map with
  | [] => [(key, 1)]
  | (k, n) :: rest =>
      if (k =? key)%string then (k, n + 1) :: rest
      else (k, n) :: increment key rest
  end.

(** [subtitles_map[key]] without inserting: the count so far. *)
Fixpoint count (key : string) (subtitles_map : list (string * Z)) : Z :=
  match subtitles_map with
  | [] => 0
  | (k, n) :: rest => if (k =? key)%string then n else count key rest
  end.

(** Lines 177-180. *)
Fixpoint download_missing (env : Env) (original_path current_path : string)
  (languages_list : list Language) (subtitles_map : list (string * Z))
  : M (list (string * Z)) :=
  match languages_list with
  | [] => ret subtitles_map
  | language :: rest =>
      result_path <- find_file_subtitles env original_path current_path
                       language ;;
      download_missing env original_path current_path rest
        (if truthy_opt truthy_str result_path
         then increment (alpha3 language) subtitles_map
         else subtitles_map)
  end.

(** Lines 147-182: one pass of the loop over the original paths. *)
Definition process_entry (env : Env) (original_path : string)
  (subtitles_map : list (string * Z)) : M (list (string * Z)) :=
  current_path <- lift (reconstruct env original_path) ;;
  if isfile env current_path then
    log INFO ("Checking subtitles for: " ++ current_path) ;;
    let video_base_path := fst (splitext current_path) in
    languages_list <- find_gaps env video_base_path LANGUAGE_EXTENSIONS [] ;;
    download_missing env original_path current_path languages_list
      subtitles_map
  else
    log INFO ("Couldn't find: " ++ current_path) ;;
    ret subtitles_map.

(** Lines 146-182. *)
Fixpoint process_entries (env : Env) (original_paths_list : list string)
  (subtitles_map : list (string * Z)) : M (list (string * Z)) :=
  match original_paths_list with
  | [] => ret subtitles_map
  | original_path :: rest =>
      subtitles_map' <- process_entry env original_path subtitles_map ;;
      process_entries env rest subtitles_map'
  end.

(** The text of the final summary, lines 183-184. *)
Definition summary (subtitles_map : list (string * Z)) : string :=
  "All done! The results are: " ++
  String.concat ", "
    (map (fun '(language, counter) => language ++ " - " ++ str_int counter)
         subtitles_map).

(** Lines 118-187.  The subliminal cache set-up of lines 52-63 is recorded
    as one event. *)
Definition main (env : Env) : M unit :=
  log INFO "Subtitles Monitor started!" ;;
  if negb (isfile env (ORIGINAL_NAMES_LOG env)) then raise FileNotFoundError
  else if negb (isdir env MEDIA_ROOT_PATH) then raise NotADirectoryError
  else
    try_except
      (log DEBUG "Setting subtitles cache..." ;;
       emit ConfigureCache ;;
       log INFO "Going over the original names file..." ;;
       let original_paths_list :=
         LogWindow.read_window RESULTS_LIMIT
           (read_text env (ORIGINAL_NAMES_LOG env)) in
       log INFO ("Searching for subtitles for the "
                 ++ str_opt_int RESULTS_LIMIT ++ " newest videos...") ;;
       subtitles_map <- process_entries env original_paths_list [] ;;
       log INFO (summary subtitles_map))
      any_exception
      (fun e => emit (LogException "Critical exception occurred!" e) ;;
                raise e).

(** The records every search leaves before the result is looked at. *)
Definition search_events (original_path : string) (language : Language)
  (video : Video) : trace :=
  [Log INFO ("Searching " ++ alpha3 language ++ " subtitles for file: "
             ++ original_path);
   Download (video_name video) (alpha3 language) (PROVIDERS_MAP_get language)].

(** The records of a result with content, up to the attempt to write. *)
Definition saving_events (subtitle : Subtitle) (path content : string)
  : trace :=
  [Log INFO "Subtitles found! Saving files...";
   Log INFO ("Saving " ++ sub_str subtitle ++ " to: " ++ path);
   WriteFile path content].

(** The records of a run up to the start of the loop over the entries. *)
Definition startup_events : trace :=
  [Log INFO "Subtitles Monitor started!";
   Log DEBUG "Setting subtitles cache...";
   ConfigureCache;
   Log INFO "Going over the original names file...";
   Log INFO "Searching for subtitles for the 300 newest videos..."].

(** The languages of the counters, in the order the dictionary keeps. *)
Definition keys (subtitles_map : list (string * Z)) : list string :=
  map fst subtitles_map.

(** How often a language code occurs among the languages to download. *)
Definition occurrences (key : string) (languages_list : list Language) : nat :=
  List.length
    (filter (fun language => (alpha3 language =? key)%string) languages_list).

(** The error kind of a start-up failure: the names file or the media root
    is missing. *)
Definition is_ConfigurationError (e : exn) : bool :=
  match e with
  | FileNotFoundError | NotADirectoryError => true
  | _ => false
  end.

End SubtitlesMonitor.

(** ** gdrive_migration.py *)

Module GDriveMigration.
Import Py Eff.
Local Open Scope py_scope.

(** The command line, the working directory (through [os.path.abspath]) and
    the file system; [walk] lists, for a directory, each directory below it
    with the names of its files, as [os.walk] yields them. *)
Record Env : Type := mkEnv {
  argv : list string;
  abspath : string -> string;
  isfile : string -> bool;
  isdir : string -> bool;
  walk : string -> list (string * list string)
}.

Definition ACD_PREFIX : string := "/amazon/Amazon Cloud Drive/".
Definition ODRIVE_CMD : string := "/usr/bin/python /opt/odrive/odrive.py".
Definition RCLONE_CMD : string := "/usr/bin/rclone".

Definition USAGE : string := "Usage: python3 gdrive_migration.py <INPUT_PATH>".
Definition INVALID_PATH : string := "Invalid input path given. Stopping!".

(** A double quote, as the command templates contain it. *)
Definition dq : string := String (ascii_of_nat 34) EmptyString.

(** [l[i]], raising [IndexError] out of range. *)
Definition index {A} (l : list A) (i : nat) : result A :=
  match item l i with Some a => Ok a | None => Raise IndexError end.

(** Lines 31-51. *)
Definition handle_file (input_path : string) : M unit :=
  log INFO ("Handling file: " ++ input_path) ;;
  synced <-
    (if endswith ".cloud" input_path then
       log DEBUG ("Syncing file: " ++ input_path) ;;
       emit (Shell (ODRIVE_CMD ++ " sync " ++ dq ++ input_path ++ dq)) ;;
       input_path' <- lift (index (split ".cloud" input_path) 0) ;;
       ret (input_path', true)
     else ret (input_path, false)) ;;
  let input_path := fst synced in
  let is_synced := snd synced in
  log DEBUG ("Copying file: " ++ input_path) ;;
  gdrive_path <- lift (index (split ACD_PREFIX input_path) 1) ;;
  emit (Shell (RCLONE_CMD ++ " copyto " ++ dq ++ input_path ++ dq ++ " "
               ++ dq ++ "GDrive:" ++ gdrive_path ++ dq)) ;;
  if is_synced then
    log DEBUG ("Unsyncing file: " ++ input_path) ;;
    emit (Shell (ODRIVE_CMD ++ " unsync " ++ dq ++ input_path ++ dq))
  else ret tt.

(** Lines 61-63. *)
Fixpoint handle_files (root : string) (files : list string) : M unit :=
  match files with
  | [] => ret tt
  | f :: rest =>
      let file_path := join2 root f in
      handle_file file_path ;;
      handle_files root rest
  end.

(** Lines 59-63, over what [os.walk] yields. *)
Fixpoint handle_walk (dirs : list (string * list string)) : M unit :=
  match dirs with
  | [] => ret tt
  | (root, files) :: rest =>
      log INFO ("Handling dir: " ++ root) ;;
      handle_files root files ;;
      handle_walk rest
  end.

Definition handle_dir (env : Env) (input_path : string) : M unit :=
  handle_walk (walk env input_path).

(** Lines 70-81.  [len(sys.argv) == 2] is the two-element pattern. *)
Definition main (env : Env) : M unit :=
  match argv env with
  | [_; arg] =>
      let input_path := abspath env arg in
      if isfile env input_path then handle_file input_path
      else if isdir env input_path then handle_dir env input_path
      else emit (Print INVALID_PATH)
  | _ => emit (Print USAGE)
  end.

End GDriveMigration.

(** ** Sample inputs *)

Module Samples.
Import Py.

Definition nl : string := String newline EmptyString.

Definition three_lines : Text.text :=
  Text.of_ascii ("/a.mkv" ++ nl ++ " /b.mkv " ++ nl ++ "/c.mkv").

Import Eff SubtitlesMonitor.

(** A guesser for the names used below.  The empty name, which a blank
    line of the names file gives, has no title and nothing else; for a name
    that is not listed the base name without its extension stands in as
    the title. *)
Definition guess_of (p : string) : Guess :=
  if (p =? "/downloads/Some.Movie.2019.mp4")%string
  then mkGuess (Some "some movie") None None (Some 2019)
  else if (p =? "/downloads/Show.Name.S02E03.mkv")%string
  then mkGuess (Some "Show Name") (Some 3) (Some 2) None
  else if (p =? "/downloads/Show.S01E00.mkv")%string
  then mkGuess (Some "Show") (Some 0) (Some 1) None
  else if (p =? "/downloads/2019.mkv")%string
  then mkGuess (Some "downloads") None None (Some 2019)
  else if (p =? "")%string
  then mkGuess None None None None
  else mkGuess (Some (fst (splitext (basename p)))) None None None.

Definition show_name (t : option string) : result string :=
  match t with Some s => Ok s | None => Raise TypeError end.

Definition in_list (files : list string) (p : string) : bool :=
  existsb (String.eqb p) files.

Definition sidecar_path (name : string) (language : Language) : string :=
  fst (splitext name)
  ++ (if language_eqb language heb then ".he" else ".en") ++ ".srt".

(** An environment with the given files on disk, the given ASCII text in
    the names file, the given answer of the provider and the given outcomes
    of writing and uploading. *)
Definition env (files : list string) (names : string)
  (found : list (list Subtitle)) (written uploaded : option exn) : Env :=
  {| ORIGINAL_NAMES_LOG := "/var/log/original_names.log";
     CLOUD_TV_PATH := "TV";
     CLOUD_MOVIE_PATH := "Movies";
     isfile := in_list files;
     isdir := fun d => (d =? MEDIA_ROOT_PATH)%string;
     read_text := fun _ => Text.of_ascii names;
     write_bytes := fun _ _ => written;
     guessit := guess_of;
     format_show := show_name;
     fromguess := fun name _ => Ok (mkVideo name);
     download_best_subtitles := fun _ _ _ => Ok found;
     get_subtitle_path := sidecar_path;
     upload_file := fun _ => uploaded;
     unicode_title := fun s => s |}.

Definition names_log : string := "/var/log/original_names.log".
Definition movie_original : string := "/downloads/Some.Movie.2019.mp4".
Definition movie_current : string :=
  "/mnt/vdb/plexdrive/gdrive_decrypted/Movies/Some Movie (2019)/Some Movie (2019).mp4".
Definition episode_original : string := "/downloads/Show.Name.S02E03.mkv".
Definition pilot_original : string := "/downloads/Show.S01E00.mkv".

(** The entry a blank line of the names file gives. *)
Definition blank_entry : string := "".

Definition hebrew_subtitle (content : option string) : Subtitle :=
  mkSubtitle content heb "<Subtitle 'x' [he]>".

(** A names file that ends with a blank line: the newest entry is the
    empty name, the movie is older. *)
Definition blank_newest : string := movie_original ++ nl ++ nl.

(** A names file whose first line is blank: the movie is the newest
    entry and the empty name the oldest. *)
Definition blank_oldest : string := nl ++ movie_original ++ nl.

(** A command line for the migration script on a disk that holds nothing. *)
Definition migration_env (argv : list string) : GDriveMigration.Env :=
  GDriveMigration.mkEnv argv (fun p => p) (fun _ => false) (fun _ => false)
    (fun _ => []).

(** The sample environment with another library call in one place. *)
Definition with_fromguess (e : Env) (f : string -> Guess -> result Video)
  : Env :=
  mkEnv (ORIGINAL_NAMES_LOG e) (CLOUD_TV_PATH e) (CLOUD_MOVIE_PATH e)
    (isfile e) (isdir e) (read_text e) (write_bytes e) (guessit e)
    (format_show e) f (download_best_subtitles e) (get_subtitle_path e)
    (upload_file e) (unicode_title e).

Definition with_download (e : Env)
  (d : Video -> Language -> option (list string)
       -> result (list (list Subtitle))) : Env :=
  mkEnv (ORIGINAL_NAMES_LOG e) (CLOUD_TV_PATH e) (CLOUD_MOVIE_PATH e)
    (isfile e) (isdir e) (read_text e) (write_bytes e) (guessit e)
    (format_show e) (fromguess e) d (get_subtitle_path e) (upload_file e)
    (unicode_title e).

Definition with_guessit (e : Env) (g : string -> Guess) : Env :=
  mkEnv (ORIGINAL_NAMES_LOG e) (CLOUD_TV_PATH e) (CLOUD_MOVIE_PATH e)
    (isfile e) (isdir e) (read_text e) (write_bytes e) g
    (format_show e) (fromguess e) (download_best_subtitles e)
    (get_subtitle_path e) (upload_file e) (unicode_title e).

(** The movie is on disk with both, one or none of its subtitles files. *)
Definition movie_he : string :=
  "/mnt/vdb/plexdrive/gdrive_decrypted/Movies/Some Movie (2019)/Some Movie (2019).he.srt".
Definition movie_en : string :=
  "/mnt/vdb/plexdrive/gdrive_decrypted/Movies/Some Movie (2019)/Some Movie (2019).en.srt".

(** A guesser that finds an episode number and no season. *)
Definition guess_no_season (p : string) : Guess :=
  mkGuess (Some "Show") (Some 5) None None.

(** A names file with the three kinds of line end, and one whose lines
    carry white space beyond ASCII: a no-break space and an em space. *)
Definition mixed_line_ends : Text.text :=
  (Text.of_ascii "/a.mkv" ++ [13] ++ Text.of_ascii "/b.mkv" ++ [13; 10]
   ++ Text.of_ascii "/c.mkv" ++ [10])%list.

Definition unicode_blanks : Text.text :=
  ([160] ++ Text.of_ascii "/a.mkv" ++ [8195; 10])%list.

(** A command line naming one directory, which holds the given files and
    no directory. *)
Definition drive_dir : string := "/amazon/Amazon Cloud Drive/Movies".

Definition migration_tree (dir : string) (files : list string)
  : GDriveMigration.Env :=
  GDriveMigration.mkEnv ["gdrive_migration.py"; dir] (fun p => p)
    (fun _ => false) (fun d => (d =? dir)%string)
    (fun d => if (d =? dir)%string then [(dir, files)] else []).

End Samples.

(** * Properties *)

(** ** The log window (lines 136-144) *)

Section LogWindowFacts.
Import Py Text LogWindow.

Lemma readline_cons (c : Z) (rest : text) :
  readline (c :: rest)
  = if c =? LF then ([LF], rest)
    else if c =? CR then
      ([LF],
       match rest with
       | d :: rest' => if d =? LF then rest' else rest
       | [] => rest
       end)
    else let (l, r) := readline rest in (c :: l, r).
Proof. reflexivity. Qed.

Lemma file_lines_cons (c : Z) (rest : text) :
  file_lines (c :: rest)
  = if c =? LF then [LF] :: file_lines rest
    else if c =? CR then
      [LF] :: match rest with
              | d :: rest' =>
                  if d =? LF then file_lines rest' else file_lines rest
              | [] => []
              end
    else match file_lines rest with
         | [] => [[c]]
         | l :: ls => (c :: l) :: ls
         end.
Proof. reflexivity. Qed.

Lemma readline_file_lines (c : Z) (s : text) :
  let '(l, r) := readline (c :: s) in
  file_lines (c :: s) = l :: file_lines r
  /\ l <> []
  /\ (List.length r <= List.length s)%nat.
Proof.
  revert c; induction s as [|d s IH]; intros c;
    rewrite readline_cons, file_lines_cons.
  - destruct (c =? LF); [|destruct (c =? CR)];
      cbn; repeat split; auto; discriminate.
  - destruct (c =? LF).
    + repeat split; auto. discriminate.
    + destruct (c =? CR).
      * destruct (d =? LF); repeat split; try reflexivity;
          try discriminate; cbn [List.length]; lia.
      * specialize (IH d).
        destruct (readline (d :: s)) as [l r].
        destruct IH as (Hl & Hne & Hlen).
        rewrite Hl. repeat split; auto; try discriminate.
        cbn [List.length]. lia.
Qed.

Lemma read_loop_fold (limit : option Z) (fuel : nat) :
  forall line file acc,
    (List.length file < fuel)%nat ->
    (line = [] -> file = []) ->
    read_loop fuel limit line file acc
    = fold_left (fun l x => push_line limit x l) (pending line file) acc.
Proof.
  induction fuel as [|fuel IH]; intros line file acc Hfuel Heof; [lia|].
  unfold pending. cbn [read_loop].
  destruct line as [|c0 line0]; [reflexivity|].
  set (line := c0 :: line0) in *.
  cbn [fold_left].
  destruct file as [|c s].
  - cbn [readline file_lines fold_left]. destruct fuel; reflexivity.
  - pose proof (readline_file_lines c s) as H.
    destruct (readline (c :: s)) as [l r].
    destruct H as (Hl & Hne & Hlen).
    rewrite Hl, IH.
    + unfold pending. destruct l; [contradiction|reflexivity].
    + cbn [List.length] in Hfuel. lia.
    + intros ->. contradiction.
Qed.

Lemma read_window_fold (limit : option Z) (content : text) :
  read_window limit content
  = fold_left (fun l x => push_line limit x l) (file_lines content) [].
Proof.
  unfold read_window.
  destruct content as [|c s]; [reflexivity|].
  pose proof (readline_file_lines c s) as H.
  destruct (readline (c :: s)) as [l r].
  destruct H as (Hl & Hne & Hlen).
  rewrite read_loop_fold.
  - unfold pending. destruct l; [contradiction|]. now rewrite Hl.
  - cbn [List.length]. lia.
  - intros ->. contradiction.
Qed.

Lemma push_line_window (limit : option Z) (x : text) (L : list string) :
  push_line limit x (window limit L) = window limit (entry_of x :: L).
Proof.
  unfold push_line, over_limit, window.
  destruct limit as [n|]; [|reflexivity].
  unfold truthy_opt, truthy_int.
  destruct (Z.eqb_spec n 0) as [->|Hn]; [reflexivity|].
  cbn [negb andb].
  destruct (Z.to_nat n) as [|k] eqn:Ek.
  - assert (n < 0) by lia.
    cbn [firstn List.length].
    destruct (Z.gtb_spec (Z.of_nat 1) n); [reflexivity|lia].
  - assert (Hnk : n = Z.of_nat (S k)) by lia.
    change (firstn (S k) (entry_of x :: L)) with (entry_of x :: firstn k L).
    destruct (Nat.le_gt_cases (S k) (List.length L)) as [Hlong|Hshort].
    + rewrite <- (@removelast_firstn _ k L) by lia.
      set (F := firstn (S k) L).
      assert (HF : List.length F = S k)
        by (apply (@firstn_length_le _ L (S k)); lia).
      cbn [List.length]. rewrite HF.
      destruct (Z.gtb_spec (Z.of_nat (S (S k))) n); [|lia].
      destruct F; [discriminate|reflexivity].
    + rewrite (@firstn_all2 _ (S k) L) by lia.
      rewrite (@firstn_all2 _ k L) by lia.
      cbn [List.length].
      destruct (Z.gtb_spec (Z.of_nat (S (List.length L))) n); [lia|reflexivity].
Qed.

Lemma fold_push_window (limit : option Z) (lines : list text) :
  forall L,
    fold_left (fun l x => push_line limit x l) lines (window limit L)
    = window limit (rev (map entry_of lines) ++ L)%list.
Proof.
  induction lines as [|x lines IH]; intros L; [reflexivity|].
  simpl. rewrite push_line_window, IH.
  now rewrite <- app_assoc.
Qed.

Lemma window_nil (limit : option Z) : window limit [] = [].
Proof.
  destruct limit as [n|]; simpl; [|reflexivity].
  destruct (n =? 0); [reflexivity|apply firstn_nil].
Qed.

Lemma read_window_is_window (limit : option Z) (content : text) :
  read_window limit content
  = window limit (rev (map entry_of (file_lines content))).
Proof.
  rewrite read_window_fold.
  rewrite <- (window_nil limit) at 1.
  rewrite fold_push_window. now rewrite app_nil_r.
Qed.

(** C1.  For a log file of [N] lines and a limit [n > 0] the window holds
    exactly [min N n] entries, newest first: the first [n] of the stripped
    lines taken in reverse file order, that is the last [n] lines reversed.
    With the limit unset ([None] or [0]) it holds all [N] entries, newest
    first.  The lines are those of Python's text mode, where a carriage
    return ends a line as a line feed does, and the white space stripped is
    that of [str.strip]. *)
Theorem read_window_newest_first (content : text) (limit : option Z) :
  let N := List.length (file_lines content) in
  let entries := map entry_of (file_lines content) in
  (forall n, limit = Some n -> 0 < n ->
     read_window limit content = firstn (Z.to_nat n) (rev entries)
     /\ read_window limit content = rev (skipn (N - Z.to_nat n) entries)
     /\ Z.of_nat (List.length (read_window limit content))
        = Z.min (Z.of_nat N) n)
  /\ (limit = None \/ limit = Some 0 ->
     read_window limit content = rev entries
     /\ List.length (read_window limit content) = N).
Proof.
  cbv zeta.
  set (lines := file_lines content).
  assert (HN : List.length (rev (map entry_of lines)) = List.length lines)
    by now rewrite length_rev, length_map.
  rewrite read_window_is_window. fold lines. split.
  - intros n -> Hn. unfold window.
    destruct (Z.eqb_spec n 0) as [->|_]; [lia|].
    split; [reflexivity|]. split.
    + rewrite firstn_rev. now rewrite length_map.
    + rewrite length_firstn, HN. lia.
  - intros [->| ->]; simpl; auto.
Qed.

Lemma read_window_newest_first_witness :
  read_window (Some 2) Samples.three_lines = ["/c.mkv"; "/b.mkv"]
  /\ read_window None Samples.three_lines = ["/c.mkv"; "/b.mkv"; "/a.mkv"]
  /\ read_window (Some 2) Samples.mixed_line_ends = ["/c.mkv"; "/b.mkv"]
  /\ read_window None Samples.unicode_blanks = ["/a.mkv"].
Proof.
  pose proof (read_window_newest_first Samples.three_lines (Some 2)) as H2.
  pose proof (read_window_newest_first Samples.three_lines None) as H0.
  pose proof (read_window_newest_first Samples.mixed_line_ends (Some 2)) as H3.
  pose proof (read_window_newest_first Samples.unicode_blanks None) as H4.
  cbv zeta in H2, H0, H3, H4.
  split; [|split; [|split]].
  - destruct H2 as [H2 _].
    destruct (H2 2 eq_refl ltac:(lia)) as (-> & _). reflexivity.
  - destruct H0 as [_ H0].
    destruct (H0 (or_introl eq_refl)) as (-> & _). reflexivity.
  - destruct H3 as [H3 _].
    destruct (H3 2 eq_refl ltac:(lia)) as (-> & _). reflexivity.
  - destruct H4 as [_ H4].
    destruct (H4 (or_introl eq_refl)) as (-> & _). reflexivity.
Defined.

End LogWindowFacts.

(** ** Strings and paths *)

Section PathFacts.
Import Py.

Lemma append_assoc (a b c : string) : (a ++ b) ++ c = a ++ (b ++ c).
Proof. induction a as [|x a IH]; simpl; [reflexivity|now rewrite IH]. Qed.

Lemma append_nil_inv (a b : string) : a ++ b = "" -> b = "".
Proof. destruct a; simpl; [auto|discriminate]. Qed.

Lemma endswith_slash_cons (c : ascii) (s : string) :
  endswith "/" (String c s)
  = match s with
    | EmptyString => Ascii.eqb c slash
    | _ => endswith "/" s
    end.
Proof.
  unfold endswith. destruct s as [|d s].
  - simpl. unfold slash.
    destruct (Ascii.eqb_spec c "/") as [->|Hc]; [reflexivity|].
    destruct (String.eqb_spec (String c "") "/") as [E|_]; [|reflexivity].
    inversion E. contradiction.
  - change (String.length (String c (String d s)))
      with (S (String.length (String d s))).
    change (String.length "/") with 1%nat.
    replace (S (String.length (String d s)) - 1)%nat
      with (S (String.length (String d s) - 1))%nat by (simpl; lia).
    reflexivity.
Qed.

Lemma endswith_slash_app (a b : string) :
  b <> "" -> endswith "/" (a ++ b) = endswith "/" b.
Proof.
  intros Hb. induction a as [|c a IH]; [reflexivity|].
  simpl. rewrite endswith_slash_cons, IH.
  destruct (a ++ b) eqn:E; [|reflexivity].
  apply append_nil_inv in E. contradiction.
Qed.

Lemma startswith_slash_cons (c : ascii) (s : string) :
  startswith "/" (String c s) = Ascii.eqb c slash.
Proof.
  unfold startswith, slash.
  destruct (Ascii.eqb_spec c "/") as [->|Hc].
  - destruct s; reflexivity.
  - cbn [String.prefix].
    destruct (Ascii.ascii_dec "/" c) as [E|_]; [|reflexivity].
    symmetry in E. contradiction.
Qed.

Lemma startswith_slash_app (a b : string) :
  a <> "" -> startswith "/" (a ++ b) = startswith "/" a.
Proof.
  intros Ha. destruct a as [|c a]; [contradiction|].
  cbn [append]. now rewrite !startswith_slash_cons.
Qed.

Lemma plain_component_spec (s : string) :
  plain_component s = true ->
  s <> "" /\ startswith "/" s = false /\ endswith "/" s = false.
Proof.
  unfold plain_component, truthy_str. intros H.
  apply andb_prop in H as [H H3]. apply andb_prop in H as [H1 H2].
  apply negb_true_iff in H1, H2, H3.
  apply String.eqb_neq in H1. auto.
Qed.

(** Behind a path that is not empty and does not end with the separator, a
    relative component lands after exactly one separator. *)
Lemma join2_separator (path b : string) :
  path <> "" -> endswith "/" path = false -> startswith "/" b = false ->
  join2 path b = path ++ "/" ++ b.
Proof.
  intros Hp He Hb. unfold join2. rewrite Hb, He.
  apply String.eqb_neq in Hp. now rewrite Hp.
Qed.

Lemma join2_open (path b : string) :
  b <> "" -> endswith "/" b = false ->
  path ++ "/" ++ b <> "" /\ endswith "/" (path ++ "/" ++ b) = false.
Proof.
  intros Hb He. split.
  - intros E. apply append_nil_inv in E. discriminate.
  - rewrite <- append_assoc, endswith_slash_app; auto.
Qed.

Lemma title_from_startswith (b : bool) (s : string) :
  startswith "/" (title_from b s) = startswith "/" s.
Proof.
  destruct s as [|c s]; [reflexivity|].
  cbn [title_from]. rewrite !startswith_slash_cons.
  destruct c as [[] [] [] [] [] [] [] []]; destruct b; reflexivity.
Qed.

End PathFacts.

(** ** Reconstruction of the current path (lines 148-166) *)

Section ReconstructFacts.
Import Py Eff SubtitlesMonitor.

Lemma below_100_cases (P : Z -> bool) :
  forallb P (map Z.of_nat (seq 0 100)) = true ->
  forall n, 0 <= n < 100 -> P n = true.
Proof.
  intros H n Hn. rewrite forallb_forall in H. apply H.
  apply in_map_iff. exists (Z.to_nat n). split; [lia|].
  apply in_seq. lia.
Qed.

(** ['{:02}'.format(n)] is the two digits of [n] for [0 <= n < 100]. *)
Lemma format_02_two_digits (n : Z) :
  0 <= n < 100 ->
  format_zero_padded 2 n = two_digits n
  /\ endswith "/" ("Season " ++ two_digits n) = false.
Proof.
  intros Hn.
  pose proof (below_100_cases
    (fun k => (format_zero_padded 2 k =? two_digits k)%string
              && negb (endswith "/" ("Season " ++ two_digits k)))
    eq_refl n Hn) as H.
  cbv beta in H. apply andb_prop in H as [H1 H2].
  apply String.eqb_eq in H1. apply negb_true_iff in H2. auto.
Qed.

Lemma media_root_open :
  MEDIA_ROOT_PATH <> "" /\ endswith "/" MEDIA_ROOT_PATH = false.
Proof. split; [discriminate|reflexivity]. Qed.

(** The base directory of a kind: the media root, one separator, the
    configured subtree. *)
Lemma base_dir_layout (subtree : string) :
  plain_component subtree = true ->
  path_join MEDIA_ROOT_PATH [subtree] = MEDIA_ROOT_PATH ++ "/" ++ subtree
  /\ MEDIA_ROOT_PATH ++ "/" ++ subtree <> ""
  /\ endswith "/" (MEDIA_ROOT_PATH ++ "/" ++ subtree) = false.
Proof.
  intros H. apply plain_component_spec in H as (Hne & Hs & He).
  destruct media_root_open as [Hr1 Hr2].
  cbn [path_join fold_left].
  rewrite join2_separator by assumption.
  split; [reflexivity|]. now apply join2_open.
Qed.

(** A title followed by text that starts with a blank does not start with
    the separator when the title does not. *)
Lemma titled_component_relative (t rest : string) :
  startswith "/" t = false ->
  startswith "/" (t ++ String " " rest) = false.
Proof.
  intros Ht. destruct t as [|c t]; [reflexivity|].
  rewrite startswith_slash_app by discriminate. exact Ht.
Qed.

(** The movie layout under a base directory. *)
Lemma movie_join (base t year extension : string) :
  base <> "" -> endswith "/" base = false ->
  startswith "/" t = false ->
  path_join base [t ++ " (" ++ year ++ ")"; t ++ " (" ++ year ++ ")" ++ extension]
  = base ++ "/" ++ t ++ " (" ++ year ++ ")" ++ "/"
    ++ t ++ " (" ++ year ++ ")" ++ extension.
Proof.
  intros Hb He Ht.
  assert (Hdir : t ++ " (" ++ year ++ ")" <> ""
                 /\ endswith "/" (t ++ " (" ++ year ++ ")") = false).
  { split.
    - intros E. apply append_nil_inv in E. discriminate.
    - replace (t ++ " (" ++ year ++ ")") with ((t ++ " (" ++ year) ++ ")")
        by now rewrite !append_assoc.
      now rewrite endswith_slash_app. }
  destruct Hdir as [Hd1 Hd2].
  cbn [path_join fold_left].
  rewrite (join2_separator base);
    [|assumption|assumption|exact (titled_component_relative t _ Ht)].
  destruct (join2_open base _ Hd1 Hd2) as [Ho1 Ho2].
  rewrite join2_separator;
    [|assumption|assumption|exact (titled_component_relative t _ Ht)].
  now rewrite !append_assoc.
Qed.

(** One character of [title_from], checked against title case over all
    characters. *)
Lemma title_char_cased (b : bool) (c : ascii) :
  let d :=
    if is_lower c then (if b then c else to_upper c)
    else if is_upper c then (if b then to_lower c else c)
    else c in
  if is_letter c
  then same_letter c d = true
       /\ is_letter d = true
       /\ (if b then is_lower d else is_upper d) = true
  else d = c.
Proof.
  destruct c as [[] [] [] [] [] [] [] []]; destruct b;
    cbv; repeat split; reflexivity.
Qed.

Lemma title_from_cased (s : string) :
  forall b,
    String.length (title_from b s) = String.length s
    /\ forall i c d,
         String.get i s = Some c ->
         String.get i (title_from b s) = Some d ->
         if is_letter c
         then same_letter c d = true
              /\ is_letter d = true
              /\ (if match i with
                      | O => b
                      | S j => match String.get j s with
                               | Some p => is_letter p
                               | None => false
                               end
                      end
                  then is_lower d else is_upper d) = true
         else d = c.
Proof.
  induction s as [|a r IH]; intros b.
  - split; [reflexivity|]. intros i c d H. destruct i; discriminate H.
  - destruct (IH (is_letter a)) as [IHlen IHget].
    cbn [title_from String.length]. split.
    + f_equal. exact IHlen.
    + intros [|j] c d Hc Hd.
      * cbn [String.get] in Hc, Hd.
        injection Hc as <-. injection Hd as <-.
        apply title_char_cased.
      * cbn [String.get] in Hc, Hd.
        specialize (IHget j c d Hc Hd).
        destruct j as [|k]; exact IHget.
Qed.

(** [title] puts ASCII text in title case. *)
Lemma title_is_title_cased (t : string) : title_cased t (title t).
Proof.
  destruct (title_from_cased t false) as [Hlen Hget].
  split; [exact Hlen|].
  intros i c d Hc Hd. specialize (Hget i c d Hc Hd).
  destruct i as [|j]; exact Hget.
Qed.

(** C3, as the code has it.  A descriptor without an episode number that
    has a title gives the current path root, movie subtree, the directory
    [Title (year)] and the file [Title (year)] with the extension of the
    original path, where [Title] is [title.title()]; this needs the movie
    subtree to be one relative component and [Title] not to begin with the
    separator, since [os.path.join] restarts at an absolute component.  An
    ASCII title is put in title case: each letter that no letter precedes
    in upper case, every other letter in lower case, all else unchanged.
    The title [some movie] of 2019 with extension [.mp4] gives
    [Some Movie (2019)/Some Movie (2019).mp4] under the movie subtree. *)
Theorem movie_path_layout (env : Env) (original_path t : string) :
  g_episode (guessit env original_path) = None ->
  g_title (guessit env original_path) = Some t ->
  startswith "/" (str_title env t) = false ->
  plain_component (CLOUD_MOVIE_PATH env) = true ->
  let Title := str_title env t in
  let year := str_opt_int (g_year (guessit env original_path)) in
  let extension := snd (splitext original_path) in
  reconstruct env original_path
  = Ok (MEDIA_ROOT_PATH ++ "/" ++ CLOUD_MOVIE_PATH env ++ "/"
        ++ Title ++ " (" ++ year ++ ")" ++ "/"
        ++ Title ++ " (" ++ year ++ ")" ++ extension)
  /\ (is_ascii t = true -> title_cased t Title)
  /\ (t = "some movie" ->
      g_year (guessit env original_path) = Some 2019 ->
      extension = ".mp4" ->
      reconstruct env original_path
      = Ok (MEDIA_ROOT_PATH ++ "/" ++ CLOUD_MOVIE_PATH env
            ++ "/Some Movie (2019)/Some Movie (2019).mp4")).
Proof.
  intros Hep Ht Hrel Hsub Title year extension.
  assert (Hgen : reconstruct env original_path
                 = Ok (MEDIA_ROOT_PATH ++ "/" ++ CLOUD_MOVIE_PATH env ++ "/"
                       ++ Title ++ " (" ++ year ++ ")" ++ "/"
                       ++ Title ++ " (" ++ year ++ ")" ++ extension)).
  { unfold reconstruct. rewrite Hep, Ht.
    cbn [truthy_opt title_method rbind].
    destruct (base_dir_layout _ Hsub) as (-> & Hb1 & Hb2).
    rewrite movie_join; auto. }
  split; [exact Hgen|]. split.
  - intros Hascii. unfold Title, str_title. rewrite Hascii.
    apply title_is_title_cased.
  - intros -> Hy Hext. rewrite Hgen. unfold year, Title.
    rewrite Hy, Hext. reflexivity.
Qed.

Lemma movie_path_layout_witness :
  reconstruct (Samples.env [] "" [] None None) Samples.movie_original
  = Ok Samples.movie_current
  /\ title_cased "some movie" "Some Movie".
Proof.
  destruct (movie_path_layout (Samples.env [] "" [] None None)
              Samples.movie_original "some movie"
              eq_refl eq_refl eq_refl eq_refl) as (_ & Hcased & H).
  split.
  - rewrite (H eq_refl eq_refl eq_refl). reflexivity.
  - exact (Hcased eq_refl).
Defined.

(** C3, as claimed, fails.  A blank line of the names file gives the empty
    name, whose descriptor has no episode number and no title: there is no
    current path, the reconstruction raises [AttributeError] on line
    162. *)
Lemma blank_line_has_no_movie_path :
  let env := Samples.env [] Samples.blank_newest [] None None in
  LogWindow.read_window RESULTS_LIMIT (read_text env (ORIGINAL_NAMES_LOG env))
  = [Samples.blank_entry; Samples.movie_original]
  /\ g_episode (guessit env Samples.blank_entry) = None
  /\ g_title (guessit env Samples.blank_entry) = None
  /\ reconstruct env Samples.blank_entry = Raise AttributeError.
Proof. cbv zeta. repeat split; vm_compute; reflexivity. Qed.

(** The episode layout under a base directory. *)
Lemma episode_join (base t season file_rest : string) :
  base <> "" -> endswith "/" base = false ->
  plain_component t = true ->
  endswith "/" ("Season " ++ season) = false ->
  path_join base [t; "Season " ++ season; t ++ " - S" ++ file_rest]
  = base ++ "/" ++ t ++ "/" ++ "Season " ++ season ++ "/"
    ++ t ++ " - S" ++ file_rest.
Proof.
  intros Hb He Ht Hs.
  apply plain_component_spec in Ht as (Ht1 & Ht2 & Ht3).
  cbn [path_join fold_left].
  rewrite (join2_separator base) by assumption.
  destruct (join2_open base t Ht1 Ht3) as [Ho1 Ho2].
  rewrite (join2_separator (base ++ "/" ++ t));
    [|assumption|assumption|reflexivity].
  assert (Hsn : "Season " ++ season <> "") by discriminate.
  destruct (join2_open (base ++ "/" ++ t) _ Hsn Hs) as [Hp1 Hp2].
  rewrite join2_separator;
    [|assumption|assumption|exact (titled_component_relative t _ Ht2)].
  now rewrite !append_assoc.
Qed.

(** With an episode number from 1 to 99 and a season from 0 to 99 the
    current path is root, television subtree, the formatted title, the
    directory [Season NN] and the file [title - SNNENN] with the extension
    of the original path. *)
Lemma episode_path_layout (env : Env) (original_path t : string) (s e : Z) :
  g_episode (guessit env original_path) = Some e -> 0 < e < 100 ->
  g_season (guessit env original_path) = Some s -> 0 <= s < 100 ->
  format_show env (g_title (guessit env original_path)) = Ok t ->
  plain_component t = true ->
  plain_component (CLOUD_TV_PATH env) = true ->
  reconstruct env original_path
  = Ok (MEDIA_ROOT_PATH ++ "/" ++ CLOUD_TV_PATH env ++ "/" ++ t
        ++ "/Season " ++ two_digits s ++ "/"
        ++ t ++ " - S" ++ two_digits s ++ "E" ++ two_digits e
        ++ snd (splitext original_path)).
Proof.
  intros Hep He Hse Hs Ht Hplain Hsub.
  unfold reconstruct. rewrite Hep, Hse, Ht.
  cbn [truthy_opt]. unfold truthy_int.
  destruct (Z.eqb_spec e 0) as [->|_]; [lia|].
  cbn [negb format_02 rbind].
  destruct (format_02_two_digits s Hs) as [-> Hseason].
  destruct (format_02_two_digits e) as [-> _]; [lia|].
  destruct (base_dir_layout _ Hsub) as (-> & Hb1 & Hb2).
  rewrite episode_join by assumption.
  reflexivity.
Qed.

Lemma episode_path_layout_example :
  reconstruct (Samples.env [] "" [] None None) Samples.episode_original
  = Ok "/mnt/vdb/plexdrive/gdrive_decrypted/TV/Show Name/Season 02/Show Name - S02E03.mkv".
Proof.
  rewrite (episode_path_layout _ _ "Show Name" 2 3); try reflexivity; lia.
Qed.

(** C2, at an episode numbered 0.  The descriptor of [Show.S01E00.mkv]
    holds season 1 and episode 0, both below 100, yet [if episode:] sends
    it down the movie branch: the current path is [Show (None)] under the
    movie subtree, not [Show/Season 01/Show - S01E00.mkv] under the
    television subtree. *)
Theorem episode_zero_takes_movie_layout :
  let env := Samples.env [] "" [] None None in
  guessit env Samples.pilot_original
  = mkGuess (Some "Show") (Some 0) (Some 1) None
  /\ reconstruct env Samples.pilot_original
     = Ok "/mnt/vdb/plexdrive/gdrive_decrypted/Movies/Show (None)/Show (None).mkv"
  /\ reconstruct env Samples.pilot_original
     <> Ok (MEDIA_ROOT_PATH ++ "/" ++ CLOUD_TV_PATH env ++ "/" ++ "Show"
            ++ "/Season " ++ two_digits 1 ++ "/"
            ++ "Show" ++ " - S" ++ two_digits 1 ++ "E" ++ two_digits 0
            ++ ".mkv").
Proof.
  cbv zeta. split; [reflexivity|]. split; [reflexivity|].
  vm_compute. discriminate.
Qed.

End ReconstructFacts.

(** ** Gap detection (lines 171-175) *)

Section GapFacts.
Import Py Eff SubtitlesMonitor.

(** The languages found missing, given which of the two files exist. *)
Lemma find_gaps_configured (env : Env) (base : string) (tr : trace) :
  find_gaps env base LANGUAGE_EXTENSIONS [] tr
  = (Ok ((if isfile env (base ++ ".he" ++ SUBTITLES_EXTENSION)
          then [] else [heb])
         ++ (if isfile env (base ++ ".en" ++ SUBTITLES_EXTENSION)
             then [] else [eng]))%list,
     tr).
Proof.
  unfold LANGUAGE_EXTENSIONS. cbn [find_gaps].
  destruct (isfile env (base ++ ".he" ++ SUBTITLES_EXTENSION));
    destruct (isfile env (base ++ ".en" ++ SUBTITLES_EXTENSION));
    reflexivity.
Qed.

(** C4.  Gap detection for a video leaves the trace as it was (no provider
    is called, nothing is logged) and yields a list that holds the language
    of a configured extension exactly when the file
    [<video base name><extension>.srt] is not on disk: nothing when both
    files exist, Hebrew and English when neither does. *)
Theorem gap_detection (env : Env) (current_path : string) (tr : trace) :
  let base := fst (splitext current_path) in
  exists gaps,
    find_gaps env base LANGUAGE_EXTENSIONS [] tr = (Ok gaps, tr)
    /\ (forall extension language,
          In extension LANGUAGE_EXTENSIONS ->
          fromalpha2 (lstrip_chars "." extension) = Ok language ->
          (In language gaps
           <-> isfile env (base ++ extension ++ ".srt") = false))
    /\ (isfile env (base ++ ".he" ++ ".srt") = true ->
        isfile env (base ++ ".en" ++ ".srt") = true -> gaps = [])
    /\ (isfile env (base ++ ".he" ++ ".srt") = false ->
        isfile env (base ++ ".en" ++ ".srt") = false -> gaps = [heb; eng]).
Proof.
  intros base. eexists. split; [apply find_gaps_configured|].
  unfold SUBTITLES_EXTENSION.
  split; [|split].
  - intros extension language Hin Hlang.
    destruct Hin as [<-|[<-|[]]]; cbn in Hlang;
      injection Hlang as <-;
      destruct (isfile env (base ++ ".he" ++ ".srt"));
      destruct (isfile env (base ++ ".en" ++ ".srt"));
      cbn; split; intros H; try discriminate; try tauto;
      try (destruct H as [H|H]; try discriminate; try tauto;
           destruct H as [H|H]; try discriminate; tauto).
  - intros -> ->. reflexivity.
  - intros -> ->. reflexivity.
Qed.

Lemma gap_detection_witness :
  exists gaps,
    find_gaps (Samples.env [Samples.movie_current] "" [] None None)
      (fst (splitext Samples.movie_current)) LANGUAGE_EXTENSIONS [] []
    = (Ok gaps, [])
    /\ In heb gaps /\ gaps = [heb; eng].
Proof.
  destruct (gap_detection (Samples.env [Samples.movie_current] "" [] None None)
              Samples.movie_current []) as (gaps & Hrun & Hiff & _ & Hnone).
  exists gaps. split; [exact Hrun|]. split.
  - apply (Hiff ".he" heb); [left; reflexivity|reflexivity|reflexivity].
  - apply Hnone; reflexivity.
Defined.

End GapFacts.

(** ** Acquisition (lines 66-115) and its accounting (lines 177-180) *)

Section AcquireFacts.
Import Py Eff SubtitlesMonitor.

Ltac run :=
  cbv [find_file_subtitles bind ret emit log lift call try_except raise].

Ltac flatten_trace := repeat rewrite <- app_assoc; cbn [app].

(** The saved-file path is never the empty string, so [if result_path:]
    holds whenever a path is returned. *)
Lemma scratch_path_truthy (env : Env) (video : Video) (subtitle : Subtitle) :
  truthy_str (scratch_path env video subtitle) = true.
Proof.
  unfold scratch_path, truthy_str. cbn [path_join fold_left].
  set (b := basename _). unfold join2.
  destruct b as [|c b]; [reflexivity|].
  rewrite startswith_slash_cons.
  destruct (Ascii.eqb c slash); reflexivity.
Qed.

Lemma count_increment (key : string) (subtitles_map : list (string * Z)) :
  count key (increment key subtitles_map) = count key subtitles_map + 1.
Proof.
  induction subtitles_map as [|[k n] m IH]; simpl.
  - now rewrite String.eqb_refl.
  - destruct (String.eqb_spec k key) as [->|Hk]; simpl.
    + now rewrite String.eqb_refl.
    + apply String.eqb_neq in Hk. now rewrite Hk.
Qed.

(** When the content was saved and the upload returns, the search returns
    the path of the saved file. *)
Lemma saved_and_uploaded (env : Env)
  (original_path current_path : string) (language : Language)
  (video : Video) (values : list (list Subtitle)) (subtitle : Subtitle)
  (content : string) (tr : trace) :
  fromguess env current_path (guessit env original_path) = Ok video ->
  download_best_subtitles env video language (PROVIDERS_MAP_get language)
  = Ok values ->
  best_subtitle values = Some subtitle ->
  sub_content subtitle = Some content ->
  let path := scratch_path env video subtitle in
  write_bytes env path content = None ->
  upload_file env path = None ->
  find_file_subtitles env original_path current_path language tr
  = (Ok (Some path),
     (tr ++ search_events original_path language video
         ++ saving_events subtitle path content
         ++ [Log INFO ("Uploading " ++ path); Upload path])%list).
Proof.
  intros Hvideo Hvalues Hbest Hcontent path Hwrite Hupload.
  run. rewrite Hvideo, Hvalues, Hbest, Hcontent.
  fold path. rewrite Hwrite, Hupload.
  unfold search_events, saving_events. flatten_trace. reflexivity.
Qed.

(** C8.  When the content was saved and the upload raises an exception,
    the exception is caught and logged, the search still returns the path
    of the saved file, nothing propagates, and the count of the language
    goes up by one. *)
Theorem upload_failure_still_acquired (env : Env)
  (original_path current_path : string) (language : Language)
  (video : Video) (values : list (list Subtitle)) (subtitle : Subtitle)
  (content : string) (e : exn) (tr : trace) :
  fromguess env current_path (guessit env original_path) = Ok video ->
  download_best_subtitles env video language (PROVIDERS_MAP_get language)
  = Ok values ->
  best_subtitle values = Some subtitle ->
  sub_content subtitle = Some content ->
  let path := scratch_path env video subtitle in
  write_bytes env path content = None ->
  upload_file env path = Some e ->
  is_Exception e = true ->
  let tr' :=
    (tr ++ search_events original_path language video
        ++ saving_events subtitle path content
        ++ [Log INFO ("Uploading " ++ path); Upload path;
            LogException ("Failed to upload file: " ++ path) e])%list in
  find_file_subtitles env original_path current_path language tr
  = (Ok (Some path), tr')
  /\ (forall rest subtitles_map,
        download_missing env original_path current_path (language :: rest)
          subtitles_map tr
        = download_missing env original_path current_path rest
            (increment (alpha3 language) subtitles_map) tr')
  /\ (forall subtitles_map,
        count (alpha3 language) (increment (alpha3 language) subtitles_map)
        = count (alpha3 language) subtitles_map + 1).
Proof.
  intros Hvideo Hvalues Hbest Hcontent path Hwrite Hupload Hexc tr'.
  assert (Hrun : find_file_subtitles env original_path current_path language tr
                 = (Ok (Some path), tr')).
  { run. rewrite Hvideo, Hvalues, Hbest, Hcontent.
    fold path. rewrite Hwrite, Hupload, Hexc.
    unfold tr', search_events, saving_events. flatten_trace. reflexivity. }
  split; [exact Hrun|]. split.
  - intros rest subtitles_map. cbn [download_missing].
    unfold bind at 1. rewrite Hrun.
    cbn [truthy_opt]. unfold path. now rewrite scratch_path_truthy.
  - apply count_increment.
Qed.

Lemma upload_failure_still_acquired_witness :
  let env := Samples.env [Samples.movie_current] ""
               [[Samples.hebrew_subtitle (Some "1")]] None (Some LibraryError) in
  fst (find_file_subtitles env Samples.movie_original Samples.movie_current
         heb [])
  = Ok (Some "/tmp/Some Movie (2019).he.srt")
  /\ fst (download_missing env Samples.movie_original Samples.movie_current
            [heb] [] [])
     = Ok [("heb", 1)].
Proof.
  cbv zeta.
  destruct (upload_failure_still_acquired
              (Samples.env [Samples.movie_current] ""
                 [[Samples.hebrew_subtitle (Some "1")]] None (Some LibraryError))
              Samples.movie_original Samples.movie_current heb
              (mkVideo Samples.movie_current)
              [[Samples.hebrew_subtitle (Some "1")]]
              (Samples.hebrew_subtitle (Some "1")) "1" LibraryError []
              eq_refl eq_refl eq_refl eq_refl eq_refl eq_refl eq_refl)
    as (Hrun & Hstep & _).
  split.
  - rewrite Hrun. reflexivity.
  - rewrite Hstep. reflexivity.
Defined.

(** C10.  When the best match carries no content ([content is None]) the
    search logs the skip and returns nothing; nothing is written or
    uploaded, and the counts are left as they were. *)
Theorem empty_content_not_counted (env : Env)
  (original_path current_path : string) (language : Language)
  (video : Video) (values : list (list Subtitle)) (subtitle : Subtitle)
  (tr : trace) :
  fromguess env current_path (guessit env original_path) = Ok video ->
  download_best_subtitles env video language (PROVIDERS_MAP_get language)
  = Ok values ->
  best_subtitle values = Some subtitle ->
  sub_content subtitle = None ->
  let tr' :=
    (tr ++ search_events original_path language video
        ++ [Log INFO "Subtitles found! Saving files...";
            Log DEBUG ("Skipping subtitle " ++ sub_str subtitle
                       ++ ": no content")])%list in
  find_file_subtitles env original_path current_path language tr
  = (Ok None, tr')
  /\ (forall rest subtitles_map,
        download_missing env original_path current_path (language :: rest)
          subtitles_map tr
        = download_missing env original_path current_path rest
            subtitles_map tr').
Proof.
  intros Hvideo Hvalues Hbest Hcontent tr'.
  assert (Hrun : find_file_subtitles env original_path current_path language tr
                 = (Ok None, tr')).
  { run. rewrite Hvideo, Hvalues, Hbest, Hcontent.
    unfold tr', search_events. flatten_trace. reflexivity. }
  split; [exact Hrun|].
  intros rest subtitles_map. cbn [download_missing].
  unfold bind at 1. now rewrite Hrun.
Qed.

Lemma empty_content_not_counted_witness :
  let env := Samples.env [Samples.movie_current] ""
               [[Samples.hebrew_subtitle None]] None None in
  fst (find_file_subtitles env Samples.movie_original Samples.movie_current
         heb [])
  = Ok None
  /\ fst (download_missing env Samples.movie_original Samples.movie_current
            [heb] [("heb", 4)] [])
     = Ok [("heb", 4)].
Proof.
  cbv zeta.
  destruct (empty_content_not_counted
              (Samples.env [Samples.movie_current] ""
                 [[Samples.hebrew_subtitle None]] None None)
              Samples.movie_original Samples.movie_current heb
              (mkVideo Samples.movie_current)
              [[Samples.hebrew_subtitle None]]
              (Samples.hebrew_subtitle None) []
              eq_refl eq_refl eq_refl eq_refl)
    as (Hrun & Hstep).
  split.
  - rewrite Hrun. reflexivity.
  - rewrite Hstep. reflexivity.
Defined.

(** When writing the content raises an [OSError], the error is logged and
    the function goes on to [return subtitles_path]: a path is returned
    although nothing was saved, and the language is counted. *)
Lemma save_failure_returns_path (env : Env)
  (original_path current_path : string) (language : Language)
  (video : Video) (values : list (list Subtitle)) (subtitle : Subtitle)
  (content : string) (e : exn) (tr : trace) :
  fromguess env current_path (guessit env original_path) = Ok video ->
  download_best_subtitles env video language (PROVIDERS_MAP_get language)
  = Ok values ->
  best_subtitle values = Some subtitle ->
  sub_content subtitle = Some content ->
  let path := scratch_path env video subtitle in
  write_bytes env path content = Some e ->
  is_OSError e = true ->
  let tr' :=
    (tr ++ search_events original_path language video
        ++ saving_events subtitle path content
        ++ [Log ERROR ("Failed to save subtitles in path: " ++ path)])%list in
  find_file_subtitles env original_path current_path language tr
  = (Ok (Some path), tr')
  /\ (forall rest subtitles_map,
        download_missing env original_path current_path (language :: rest)
          subtitles_map tr
        = download_missing env original_path current_path rest
            (increment (alpha3 language) subtitles_map) tr').
Proof.
  intros Hvideo Hvalues Hbest Hcontent path Hwrite Hos tr'.
  assert (Hrun : find_file_subtitles env original_path current_path language tr
                 = (Ok (Some path), tr')).
  { run. rewrite Hvideo, Hvalues, Hbest, Hcontent.
    fold path. rewrite Hwrite, Hos.
    unfold tr', search_events, saving_events. flatten_trace. reflexivity. }
  split; [exact Hrun|].
  intros rest subtitles_map. cbn [download_missing].
  unfold bind at 1. rewrite Hrun.
  cbn [truthy_opt]. unfold path. now rewrite scratch_path_truthy.
Qed.

(** C5, at a write that fails.  The provider returns a Hebrew subtitle with
    content and the write to [/tmp] raises [OSError]: the failure is
    logged, but the search returns the path all the same and the count for
    Hebrew goes from nothing to one. *)
Theorem save_failure_is_counted :
  let env := Samples.env [Samples.movie_current] ""
               [[Samples.hebrew_subtitle (Some "1")]] (Some OSError) None in
  find_file_subtitles env Samples.movie_original Samples.movie_current heb []
  = (Ok (Some "/tmp/Some Movie (2019).he.srt"),
     [Log INFO "Searching heb subtitles for file: /downloads/Some.Movie.2019.mp4";
      Download Samples.movie_current "heb" (Some ["thewiz"; "subscenter"]);
      Log INFO "Subtitles found! Saving files...";
      Log INFO "Saving <Subtitle 'x' [he]> to: /tmp/Some Movie (2019).he.srt";
      WriteFile "/tmp/Some Movie (2019).he.srt" "1";
      Log ERROR "Failed to save subtitles in path: /tmp/Some Movie (2019).he.srt"])
  /\ fst (download_missing env Samples.movie_original Samples.movie_current
            [heb] [] [])
     = Ok [("heb", 1)].
Proof. cbv zeta. split; reflexivity. Qed.

End AcquireFacts.

(** ** The run as a whole (lines 118-187) *)

Section MainFacts.
Import Py Eff SubtitlesMonitor.

Lemma process_entries_app (env : Env) (pre rest : list string) :
  forall subtitles_map tr,
    process_entries env (pre ++ rest) subtitles_map tr
    = bind (process_entries env pre subtitles_map)
        (fun subtitles_map' => process_entries env rest subtitles_map') tr.
Proof.
  induction pre as [|p pre IH]; intros subtitles_map tr; [reflexivity|].
  cbn [app process_entries]. unfold bind.
  destruct (process_entry env p subtitles_map tr) as [[m'|e] tr'];
    [|reflexivity].
  rewrite IH. reflexivity.
Qed.

(** Past the two checks of lines 125-128, a run is its start-up records,
    the loop over the window, and then the summary or the critical record
    of lines 185-187. *)
Lemma main_running (env : Env) (tr : trace) :
  isfile env (ORIGINAL_NAMES_LOG env) = true ->
  isdir env MEDIA_ROOT_PATH = true ->
  main env tr
  = match process_entries env
            (LogWindow.read_window RESULTS_LIMIT
               (read_text env (ORIGINAL_NAMES_LOG env)))
            [] (tr ++ startup_events)%list with
    | (Ok subtitles_map, tr1) =>
        (Ok tt, (tr1 ++ [Log INFO (summary subtitles_map)])%list)
    | (Raise e, tr1) =>
        (Raise e, (tr1 ++ [LogException "Critical exception occurred!" e])%list)
    end.
Proof.
  intros Hlog Hroot.
  unfold main, bind, log, emit, try_except, raise, any_exception.
  rewrite Hlog, Hroot. cbn [negb].
  unfold startup_events.
  repeat rewrite <- app_assoc. cbn [app].
  destruct (process_entries env _ [] _) as [[m|e] tr1]; reflexivity.
Qed.

(** Without a title and without a truthy episode number, line 162 calls
    [.title()] on [None]. *)
Lemma reconstruct_without_title (env : Env) (original_path : string) :
  g_title (guessit env original_path) = None ->
  truthy_opt truthy_int (g_episode (guessit env original_path)) = false ->
  reconstruct env original_path = Raise AttributeError.
Proof.
  intros Ht He. unfold reconstruct. now rewrite He, Ht.
Qed.

(** C7.  When the names file is not a file on disk, or the media root is
    not a directory, the run raises a configuration error
    ([FileNotFoundError], else [NotADirectoryError]) right after the start
    record: no entry is read or processed and no summary is logged. *)
Theorem startup_failure (env : Env) (tr : trace) :
  isfile env (ORIGINAL_NAMES_LOG env) = false
  \/ isdir env MEDIA_ROOT_PATH = false ->
  exists e,
    main env tr = (Raise e, (tr ++ [Log INFO "Subtitles Monitor started!"])%list)
    /\ is_ConfigurationError e = true
    /\ (isfile env (ORIGINAL_NAMES_LOG env) = false -> e = FileNotFoundError)
    /\ (isfile env (ORIGINAL_NAMES_LOG env) = true -> e = NotADirectoryError).
Proof.
  intros H. unfold main, bind, log, emit, raise.
  destruct (isfile env (ORIGINAL_NAMES_LOG env)) eqn:Hlog; cbn [negb].
  - destruct H as [H|H]; [discriminate|]. rewrite H. cbn [negb].
    exists NotADirectoryError. repeat split; auto; discriminate.
  - exists FileNotFoundError. repeat split; auto; discriminate.
Qed.

Lemma startup_failure_witness :
  exists e,
    main (Samples.env [] "" [] None None) []
    = (Raise e, [Log INFO "Subtitles Monitor started!"])
    /\ is_ConfigurationError e = true.
Proof.
  destruct (startup_failure (Samples.env [] "" [] None None) []
              (or_introl eq_refl)) as (e & Hrun & Hkind & _).
  exists e. split; [exact Hrun|exact Hkind].
Defined.

(** C6, as the code has it.  An entry without a title and without a truthy
    episode number makes the reconstruction raise [AttributeError]; the run
    logs it as a critical exception and raises it again.  The entries
    before it were processed, those after it are not, and no summary is
    logged. *)
Theorem missing_title_aborts_run (env : Env) (pre post : list string)
  (original_path : string) (subtitles_map : list (string * Z))
  (tr tr1 : trace) :
  isfile env (ORIGINAL_NAMES_LOG env) = true ->
  isdir env MEDIA_ROOT_PATH = true ->
  LogWindow.read_window RESULTS_LIMIT (read_text env (ORIGINAL_NAMES_LOG env))
  = (pre ++ original_path :: post)%list ->
  g_title (guessit env original_path) = None ->
  truthy_opt truthy_int (g_episode (guessit env original_path)) = false ->
  process_entries env pre [] (tr ++ startup_events)%list
  = (Ok subtitles_map, tr1) ->
  reconstruct env original_path = Raise AttributeError
  /\ main env tr
     = (Raise AttributeError,
        (tr1 ++ [LogException "Critical exception occurred!" AttributeError])%list).
Proof.
  intros Hlog Hroot Hwindow Ht He Hpre.
  pose proof (reconstruct_without_title env original_path Ht He) as Hrec.
  split; [exact Hrec|].
  rewrite main_running by assumption.
  rewrite Hwindow, process_entries_app.
  unfold bind at 1. rewrite Hpre.
  cbn [process_entries]. unfold bind at 1.
  unfold process_entry. unfold bind at 1. unfold lift.
  rewrite Hrec. reflexivity.
Qed.

Lemma missing_title_aborts_run_witness :
  let env := Samples.env [Samples.names_log; Samples.movie_current]
               Samples.blank_oldest [] None None in
  exists tr1,
    process_entries env [Samples.movie_original] [] startup_events
    = (Ok [], tr1)
    /\ main env []
       = (Raise AttributeError,
          (tr1 ++ [LogException "Critical exception occurred!" AttributeError])%list).
Proof.
  cbv zeta. eexists. split; [vm_compute; reflexivity|].
  apply (missing_title_aborts_run
           (Samples.env [Samples.names_log; Samples.movie_current]
              Samples.blank_oldest [] None None)
           [Samples.movie_original] [] Samples.blank_entry [] []);
    vm_compute; reflexivity.
Defined.

(** C6, as claimed, fails.  The names file ends with a blank line, so the
    newest entry is the empty name, for which the guesser finds no title:
    its reconstruction raises, nothing is logged about skipping it, the run
    ends with [AttributeError] and the older entry, a movie that is on
    disk, is never looked at. *)
Lemma missing_title_is_not_skipped :
  let env := Samples.env [Samples.names_log; Samples.movie_current]
               Samples.blank_newest [] None None in
  LogWindow.read_window RESULTS_LIMIT (read_text env (ORIGINAL_NAMES_LOG env))
  = [Samples.blank_entry; Samples.movie_original]
  /\ reconstruct env Samples.blank_entry = Raise AttributeError
  /\ main env []
     = (Raise AttributeError,
        (startup_events
         ++ [LogException "Critical exception occurred!" AttributeError])%list).
Proof. cbv zeta. repeat split; vm_compute; reflexivity. Qed.

End MainFacts.

(** ** The migration script (lines 70-81) *)

Section MigrationFacts.
Import Py Eff GDriveMigration.

(** C9, as the code has it.  With a number of arguments other than one the
    script prints the usage line; with one argument whose absolute path is
    neither a file nor a directory it prints that the path is invalid.  In
    both cases the printed line is all it does: no path is handled and no
    command is run. *)
Theorem invalid_invocation_no_action (env : Env) (tr : trace) :
  (List.length (argv env) <> 2%nat ->
   main env tr = (Ok tt, (tr ++ [Print USAGE])%list))
  /\ (forall program arg,
        argv env = [program; arg] ->
        isfile env (abspath env arg) = false ->
        isdir env (abspath env arg) = false ->
        main env tr = (Ok tt, (tr ++ [Print INVALID_PATH])%list)).
Proof.
  unfold main. split.
  - intros Hlen.
    destruct (argv env) as [|a [|b [|c l]]]; try reflexivity.
    contradiction Hlen. reflexivity.
  - intros program arg -> Hfile Hdir. now rewrite Hfile, Hdir.
Qed.

Lemma invalid_invocation_no_action_witness :
  main (Samples.migration_env ["gdrive_migration.py"]) []
  = (Ok tt, [Print USAGE])
  /\ main (Samples.migration_env ["gdrive_migration.py"; "/nowhere"]) []
     = (Ok tt, [Print INVALID_PATH]).
Proof.
  split.
  - apply (proj1 (invalid_invocation_no_action
                    (Samples.migration_env ["gdrive_migration.py"]) [])).
    discriminate.
  - apply (proj2 (invalid_invocation_no_action
                    (Samples.migration_env ["gdrive_migration.py"; "/nowhere"])
                    []) "gdrive_migration.py" "/nowhere");
      reflexivity.
Defined.

(** C9, as claimed, fails.  Called with the one argument [/nowhere], which
    is neither a file nor a directory, the script does not print the usage
    line: its only output is the invalid-path line. *)
Lemma invalid_path_prints_no_usage :
  let env := Samples.migration_env ["gdrive_migration.py"; "/nowhere"] in
  isfile env (abspath env "/nowhere") = false
  /\ isdir env (abspath env "/nowhere") = false
  /\ snd (main env []) = [Print "Invalid input path given. Stopping!"]
  /\ ~ In (Print USAGE) (snd (main env [])).
Proof.
  cbv zeta. repeat split.
  intros [H|[]]. discriminate H.
Qed.

End MigrationFacts.

(** ** More on acquisition (lines 66-115) *)

Section AcquireEdges.
Import Py Eff SubtitlesMonitor.

Ltac run_search :=
  cbv [find_file_subtitles bind ret emit log lift call try_except raise].

Ltac flatten := repeat rewrite <- app_assoc; cbn [app].

Ltac cases :=
  repeat match goal with
         | |- context [match ?x with _ => _ end] =>
             lazymatch x with
             | context [match _ with _ => _ end] => fail
             | _ => destruct x eqn:?
             end
         end.

(** X1.  When subliminal rejects the file as not being a video
    ([ValueError] from [Video.fromguess]), the search logs it and returns
    nothing: no provider is asked and the counts stay as they were. *)
Theorem not_a_video_skipped (env : Env)
  (original_path current_path : string) (language : Language) (tr : trace) :
  fromguess env current_path (guessit env original_path) = Raise ValueError ->
  let tr' :=
    (tr ++ [Log INFO ("Searching " ++ alpha3 language
                      ++ " subtitles for file: " ++ original_path);
            Log INFO "Not a video file. Moving on..."])%list in
  find_file_subtitles env original_path current_path language tr
  = (Ok None, tr')
  /\ (forall rest subtitles_map,
        download_missing env original_path current_path (language :: rest)
          subtitles_map tr
        = download_missing env original_path current_path rest
            subtitles_map tr').
Proof.
  intros Hvideo tr'.
  assert (Hrun : find_file_subtitles env original_path current_path language tr
                 = (Ok None, tr')).
  { run_search. rewrite Hvideo. cbn [is_ValueError].
    unfold tr'. flatten. reflexivity. }
  split; [exact Hrun|].
  intros rest subtitles_map. cbn [download_missing].
  unfold bind at 1. now rewrite Hrun.
Qed.

(** X2.  When the provider has no match (no value, or an empty list of
    subtitles for the video), the search logs that nothing was found and
    returns nothing; nothing is written or uploaded and the counts stay as
    they were. *)
Theorem no_match_not_counted (env : Env)
  (original_path current_path : string) (language : Language)
  (video : Video) (values : list (list Subtitle)) (tr : trace) :
  fromguess env current_path (guessit env original_path) = Ok video ->
  download_best_subtitles env video language (PROVIDERS_MAP_get language)
  = Ok values ->
  values = [] \/ (exists others, values = [] :: others) ->
  let tr' :=
    (tr ++ search_events original_path language video
        ++ [Log INFO "No subtitles were found. Moving on..."])%list in
  find_file_subtitles env original_path current_path language tr
  = (Ok None, tr')
  /\ (forall rest subtitles_map,
        download_missing env original_path current_path (language :: rest)
          subtitles_map tr
        = download_missing env original_path current_path rest
            subtitles_map tr').
Proof.
  intros Hvideo Hvalues Hnone tr'.
  assert (Hbest : best_subtitle values = None)
    by (destruct Hnone as [->|[others ->]]; reflexivity).
  assert (Hrun : find_file_subtitles env original_path current_path language tr
                 = (Ok None, tr')).
  { run_search. rewrite Hvideo, Hvalues, Hbest.
    unfold tr', search_events. flatten. reflexivity. }
  split; [exact Hrun|].
  intros rest subtitles_map. cbn [download_missing].
  unfold bind at 1. now rewrite Hrun.
Qed.

(** X3.  A [ValueError] never leaves the search, wherever it comes from:
    from building the video, from the provider, from writing the file or
    from the upload. *)
Theorem search_never_raises_ValueError (env : Env)
  (original_path current_path : string) (language : Language)
  (tr tr' : trace) (e : exn) :
  find_file_subtitles env original_path current_path language tr
  = (Raise e, tr') ->
  is_ValueError e = false.
Proof.
  run_search. cases; intros H; try discriminate H;
    injection H as <- _; assumption.
Qed.

(** X4.  A path is returned only after an attempt to write the content to
    that very path, and the path returned is never empty. *)
Theorem returned_path_was_written (env : Env)
  (original_path current_path : string) (language : Language)
  (tr tr' : trace) (path : string) :
  find_file_subtitles env original_path current_path language tr
  = (Ok (Some path), tr') ->
  truthy_str path = true
  /\ exists added content,
       tr' = (tr ++ added)%list /\ In (WriteFile path content) added.
Proof.
  run_search. cases; intros H; try discriminate H;
    inversion H; subst;
    (split; [apply scratch_path_truthy|]);
    eexists _, _; flatten; (split; [reflexivity|]); cbn; tauto.
Qed.

Lemma not_a_video_skipped_witness :
  fst (find_file_subtitles
         (Samples.with_fromguess (Samples.env [] "" [] None None)
            (fun _ _ => Raise ValueError))
         Samples.movie_original Samples.movie_current heb [])
  = Ok None.
Proof.
  destruct (not_a_video_skipped
              (Samples.with_fromguess (Samples.env [] "" [] None None)
                 (fun _ _ => Raise ValueError))
              Samples.movie_original Samples.movie_current heb [] eq_refl)
    as [Hrun _].
  rewrite Hrun. reflexivity.
Defined.

Lemma no_match_not_counted_witness :
  fst (download_missing (Samples.env [] "" [[]] None None)
         Samples.movie_original Samples.movie_current [eng] [("heb", 2)] [])
  = Ok [("heb", 2)].
Proof.
  destruct (no_match_not_counted (Samples.env [] "" [[]] None None)
              Samples.movie_original Samples.movie_current eng
              (mkVideo Samples.movie_current) [[]] []
              eq_refl eq_refl (or_intror (ex_intro _ [] eq_refl)))
    as [_ Hstep].
  rewrite Hstep. reflexivity.
Defined.

Lemma search_never_raises_ValueError_witness :
  is_ValueError LibraryError = false.
Proof.
  exact (search_never_raises_ValueError
           (Samples.with_download (Samples.env [] "" [] None None)
              (fun _ _ _ => Raise LibraryError))
           Samples.movie_original Samples.movie_current heb [] _ LibraryError
           eq_refl).
Defined.

Lemma returned_path_was_written_witness :
  truthy_str "/tmp/Some Movie (2019).he.srt" = true.
Proof.
  exact (proj1 (returned_path_was_written
                  (Samples.env [] "" [[Samples.hebrew_subtitle (Some "1")]]
                     None None)
                  Samples.movie_original Samples.movie_current heb [] _
                  "/tmp/Some Movie (2019).he.srt" eq_refl)).
Defined.

End AcquireEdges.

(** ** One entry and the loop over the entries (lines 146-182) *)

Section EntryFacts.
Import Py Eff SubtitlesMonitor.

Ltac flatten := repeat rewrite <- app_assoc; cbn [app].

Lemma count_increment_other (k key : string)
  (subtitles_map : list (string * Z)) :
  key <> k -> count k (increment key subtitles_map) = count k subtitles_map.
Proof.
  intros Hk. induction subtitles_map as [|[k0 n] m IH]; simpl.
  - apply String.eqb_neq in Hk. now rewrite Hk.
  - destruct (String.eqb_spec k0 key) as [->|Hk0]; simpl.
    + apply String.eqb_neq in Hk. now rewrite Hk.
    + now rewrite IH.
Qed.

(** Downloading for a list of languages never lowers a count, and raises
    the count of a code by at most the number of times it is asked for. *)
Lemma download_missing_counts (env : Env)
  (original_path current_path : string) (languages_list : list Language) :
  forall subtitles_map tr subtitles_map' tr',
    download_missing env original_path current_path languages_list
      subtitles_map tr = (Ok subtitles_map', tr') ->
    forall k,
      count k subtitles_map <= count k subtitles_map'
      /\ count k subtitles_map'
         <= count k subtitles_map + Z.of_nat (occurrences k languages_list).
Proof.
  induction languages_list as [|language rest IH];
    intros m tr m' tr' Hrun k.
  - cbn in Hrun. injection Hrun as <- _. unfold occurrences. simpl. lia.
  - cbn [download_missing] in Hrun. unfold bind at 1 in Hrun.
    destruct (find_file_subtitles env original_path current_path language tr)
      as [[result_path|e] tr1]; [|discriminate].
    specialize (IH _ _ _ _ Hrun k).
    unfold occurrences in *. cbn [filter].
    destruct (String.eqb_spec (alpha3 language) k) as [Hk|Hk];
      destruct (truthy_opt truthy_str result_path); cbn [List.length];
      rewrite ?Hk, ?count_increment, ?count_increment_other in IH by assumption;
      lia.
Qed.

Lemma occurrences_configured (k : string) (he en : bool) :
  (occurrences k ((if he then [] else [heb]) ++ (if en then [] else [eng]))
   <= 1)%nat
  /\ (k <> "heb" -> k <> "eng" ->
      occurrences k ((if he then [] else [heb]) ++ (if en then [] else [eng]))
      = 0%nat).
Proof.
  unfold occurrences.
  destruct he, en; cbn [app filter alpha3 heb eng];
    destruct (String.eqb_spec "heb" k) as [H1|H1];
    destruct (String.eqb_spec "eng" k) as [H2|H2];
    try (rewrite <- H1 in H2; discriminate H2);
    cbn [List.length]; split; try lia; intros; congruence.
Qed.



(** X6.  When the video is on disk together with both of its subtitles
    files, the entry only logs that it is being checked: no provider is
    asked, nothing is written and the counts stay as they were. *)
Theorem complete_video_not_searched (env : Env)
  (original_path current_path : string)
  (subtitles_map : list (string * Z)) (tr : trace) :
  reconstruct env original_path = Ok current_path ->
  isfile env current_path = true ->
  isfile env (fst (splitext current_path) ++ ".he.srt") = true ->
  isfile env (fst (splitext current_path) ++ ".en.srt") = true ->
  process_entry env original_path subtitles_map tr
  = (Ok subtitles_map,
     (tr ++ [Log INFO ("Checking subtitles for: " ++ current_path)])%list).
Proof.
  intros Hrec Hfile Hhe Hen.
  unfold process_entry. unfold bind at 1. unfold lift.
  rewrite Hrec, Hfile. unfold bind at 1. unfold log, emit.
  unfold bind at 1. rewrite find_gaps_configured.
  change (fst (splitext current_path) ++ ".he" ++ SUBTITLES_EXTENSION)
    with (fst (splitext current_path) ++ ".he.srt").
  change (fst (splitext current_path) ++ ".en" ++ SUBTITLES_EXTENSION)
    with (fst (splitext current_path) ++ ".en.srt").
  rewrite Hhe, Hen. reflexivity.
Qed.

Lemma complete_video_not_searched_witness :
  process_entry
    (Samples.env [Samples.movie_current; Samples.movie_he; Samples.movie_en]
       "" [[Samples.hebrew_subtitle (Some "1")]] None None)
    Samples.movie_original [] []
  = (Ok [], [Log INFO ("Checking subtitles for: " ++ Samples.movie_current)]).
Proof.
  apply (complete_video_not_searched
           (Samples.env
              [Samples.movie_current; Samples.movie_he; Samples.movie_en]
              "" [[Samples.hebrew_subtitle (Some "1")]] None None)
           Samples.movie_original Samples.movie_current [] []);
    reflexivity.
Defined.

Lemma no_match_counts_nothing (env : Env)
  (original_path current_path : string) (language : Language)
  (video : Video) (values : list (list Subtitle)) (tr : trace) :
  fromguess env current_path (guessit env original_path) = Ok video ->
  download_best_subtitles env video language (PROVIDERS_MAP_get language)
  = Ok values ->
  best_subtitle values = None ->
  find_file_subtitles env original_path current_path language tr
  = (Ok None,
     (tr ++ search_events original_path language video
         ++ [Log INFO "No subtitles were found. Moving on..."])%list).
Proof.
  intros Hvideo Hvalues Hbest.
  cbv [find_file_subtitles bind ret emit log lift call try_except raise].
  rewrite Hvideo, Hvalues, Hbest. unfold search_events. flatten. reflexivity.
Qed.

(** X7.  When the video is on disk, only its Hebrew subtitles file is
    missing and the provider has no match, Hebrew alone is searched, with
    the two providers configured for it; nothing is written and the counts
    stay as they were. *)
Theorem only_missing_language_searched (env : Env)
  (original_path current_path : string) (video : Video)
  (subtitles_map : list (string * Z)) (tr : trace) :
  reconstruct env original_path = Ok current_path ->
  isfile env current_path = true ->
  isfile env (fst (splitext current_path) ++ ".he.srt") = false ->
  isfile env (fst (splitext current_path) ++ ".en.srt") = true ->
  fromguess env current_path (guessit env original_path) = Ok video ->
  download_best_subtitles env video heb (Some ["thewiz"; "subscenter"])
  = Ok [] ->
  process_entry env original_path subtitles_map tr
  = (Ok subtitles_map,
     (tr ++ [Log INFO ("Checking subtitles for: " ++ current_path);
             Log INFO ("Searching heb subtitles for file: " ++ original_path);
             Download (video_name video) "heb"
               (Some ["thewiz"; "subscenter"]);
             Log INFO "No subtitles were found. Moving on..."])%list).
Proof.
  intros Hrec Hfile Hhe Hen Hvideo Hnone.
  unfold process_entry. unfold bind at 1. unfold lift.
  rewrite Hrec, Hfile. unfold bind at 1. unfold log at 1, emit at 1.
  unfold bind at 1. rewrite find_gaps_configured.
  change (fst (splitext current_path) ++ ".he" ++ SUBTITLES_EXTENSION)
    with (fst (splitext current_path) ++ ".he.srt").
  change (fst (splitext current_path) ++ ".en" ++ SUBTITLES_EXTENSION)
    with (fst (splitext current_path) ++ ".en.srt").
  rewrite Hhe, Hen. cbn [app download_missing].
  unfold bind at 1.
  rewrite (no_match_counts_nothing env original_path current_path heb video
             [] _ Hvideo Hnone eq_refl).
  cbn [truthy_opt]. unfold ret. unfold search_events. flatten. reflexivity.
Qed.

Lemma only_missing_language_searched_witness :
  process_entry
    (Samples.env [Samples.movie_current; Samples.movie_en] "" [] None None)
    Samples.movie_original [("eng", 3)] []
  = (Ok [("eng", 3)],
     [Log INFO ("Checking subtitles for: " ++ Samples.movie_current);
      Log INFO ("Searching heb subtitles for file: " ++ Samples.movie_original);
      Download Samples.movie_current "heb" (Some ["thewiz"; "subscenter"]);
      Log INFO "No subtitles were found. Moving on..."]).
Proof.
  apply (only_missing_language_searched
           (Samples.env [Samples.movie_current; Samples.movie_en] "" []
              None None)
           Samples.movie_original Samples.movie_current
           (mkVideo Samples.movie_current) [("eng", 3)] []);
    reflexivity.
Defined.

(** One entry raises each count by at most one, and only the counts of
    the two configured languages. *)
Lemma process_entry_counts (env : Env) (original_path : string)
  (subtitles_map subtitles_map' : list (string * Z)) (tr tr' : trace) :
  process_entry env original_path subtitles_map tr = (Ok subtitles_map', tr') ->
  forall k,
    count k subtitles_map <= count k subtitles_map'
    /\ count k subtitles_map' <= count k subtitles_map + 1
    /\ (k <> "heb" -> k <> "eng" ->
        count k subtitles_map' = count k subtitles_map).
Proof.
  unfold process_entry. unfold bind at 1. unfold lift.
  destruct (reconstruct env original_path) as [current_path|e];
    [|discriminate].
  destruct (isfile env current_path).
  - unfold bind at 1. unfold log, emit. unfold bind at 1.
    rewrite find_gaps_configured.
    intros Hrun k.
    destruct (download_missing_counts _ _ _ _ _ _ _ _ Hrun k) as [Hlo Hhi].
    destruct (occurrences_configured k
                (isfile env (fst (splitext current_path) ++ ".he"
                             ++ SUBTITLES_EXTENSION))
                (isfile env (fst (splitext current_path) ++ ".en"
                             ++ SUBTITLES_EXTENSION))) as [Hone Hzero].
    repeat split; try lia.
    intros H1 H2. rewrite (Hzero H1 H2) in Hhi. lia.
  - unfold bind, log, emit, ret. intros H. injection H as <- _.
    intros k. repeat split; lia.
Qed.

Lemma process_entries_counts (env : Env) (original_paths_list : list string) :
  forall subtitles_map tr subtitles_map' tr',
    process_entries env original_paths_list subtitles_map tr
    = (Ok subtitles_map', tr') ->
    forall k,
      count k subtitles_map <= count k subtitles_map'
      /\ count k subtitles_map'
         <= count k subtitles_map + Z.of_nat (List.length original_paths_list)
      /\ (k <> "heb" -> k <> "eng" ->
          count k subtitles_map' = count k subtitles_map).
Proof.
  induction original_paths_list as [|p rest IH]; intros m tr m' tr' Hrun k.
  - cbn in Hrun. injection Hrun as <- _. cbn [List.length]. repeat split; lia.
  - cbn [process_entries] in Hrun. unfold bind at 1 in Hrun.
    destruct (process_entry env p m tr) as [[m1|e] tr1] eqn:Hp;
      [|discriminate].
    destruct (process_entry_counts _ _ _ _ _ _ Hp k) as (H1 & H2 & H3).
    destruct (IH _ _ _ _ Hrun k) as (H4 & H5 & H6).
    cbn [List.length]. repeat split; try lia.
    intros Ha Hb. rewrite (H6 Ha Hb). auto.
Qed.

(** X8.  Over any list of entries the loop never lowers a count, raises a
    count by at most one for each entry, and touches no count but those of
    Hebrew and English. *)
Theorem loop_counts_bounded (env : Env) (original_paths_list : list string)
  (subtitles_map subtitles_map' : list (string * Z)) (tr tr' : trace) :
  process_entries env original_paths_list subtitles_map tr
  = (Ok subtitles_map', tr') ->
  forall k,
    count k subtitles_map <= count k subtitles_map'
    /\ count k subtitles_map'
       <= count k subtitles_map + Z.of_nat (List.length original_paths_list)
    /\ (k <> "heb" -> k <> "eng" ->
        count k subtitles_map' = count k subtitles_map).
Proof. apply process_entries_counts. Qed.

Lemma loop_counts_bounded_witness :
  0 <= count "heb" [("heb", 2); ("eng", 2)] <= 0 + 2.
Proof.
  pose (env := Samples.env [Samples.movie_current] ""
                 [[Samples.hebrew_subtitle (Some "1")]] None None).
  pose (entries := [Samples.movie_original; Samples.movie_original]).
  assert (Hrun : process_entries env entries [] []
                 = (Ok [("heb", 2); ("eng", 2)],
                    snd (process_entries env entries [] [])))
    by (vm_compute; reflexivity).
  destruct (loop_counts_bounded env entries [] _ [] _ Hrun "heb")
    as (Hlo & Hhi & _).
  split; [exact Hlo|exact Hhi].
Defined.

End EntryFacts.

(** ** The run, once more (lines 118-187) *)

Section RunFacts.
Import Py Eff SubtitlesMonitor.

Lemma window_at_most_limit (content : Text.text) :
  (List.length (LogWindow.read_window RESULTS_LIMIT content) <= 300)%nat.
Proof.
  rewrite read_window_is_window. unfold RESULTS_LIMIT, LogWindow.window.
  cbn [Z.eqb]. rewrite length_firstn.
  change (Z.to_nat 300) with 300%nat. lia.
Qed.

(** X9.  A run that returns has logged the summary as its last record, and
    the counts in it lie between 0 and 300, the limit of the window; no
    language but Hebrew and English has a count. *)
Theorem finished_run_reports_bounded_counts (env : Env) (tr tr' : trace) :
  main env tr = (Ok tt, tr') ->
  exists subtitles_map tr1,
    tr' = (tr1 ++ [Log INFO (summary subtitles_map)])%list
    /\ forall k,
         0 <= count k subtitles_map <= 300
         /\ (k <> "heb" -> k <> "eng" -> count k subtitles_map = 0).
Proof.
  intros Hmain.
  destruct (isfile env (ORIGINAL_NAMES_LOG env)) eqn:Hlog.
  2:{ unfold main, bind, log, emit, raise in Hmain.
      rewrite Hlog in Hmain. discriminate. }
  destruct (isdir env MEDIA_ROOT_PATH) eqn:Hroot.
  2:{ unfold main, bind, log, emit, raise in Hmain.
      rewrite Hlog, Hroot in Hmain. discriminate. }
  rewrite main_running in Hmain by assumption.
  destruct (process_entries env _ [] _) as [[m|e] tr1] eqn:Hloop;
    [|discriminate].
  injection Hmain as <-.
  exists m, tr1. split; [reflexivity|].
  intros k.
  destruct (process_entries_counts _ _ _ _ _ _ Hloop k) as (Hlo & Hhi & Hother).
  pose proof (window_at_most_limit (read_text env (ORIGINAL_NAMES_LOG env))).
  cbn [count] in Hlo, Hhi, Hother. split; [lia|exact Hother].
Qed.

Lemma finished_run_reports_bounded_counts_witness :
  exists subtitles_map tr1,
    snd (main (Samples.env [Samples.names_log; Samples.movie_current]
                 Samples.movie_original
                 [[Samples.hebrew_subtitle (Some "1")]] None None) [])
    = (tr1 ++ [Log INFO (summary subtitles_map)])%list
    /\ 0 <= count "heb" subtitles_map <= 300.
Proof.
  pose (env := Samples.env [Samples.names_log; Samples.movie_current]
                 Samples.movie_original
                 [[Samples.hebrew_subtitle (Some "1")]] None None).
  assert (Hrun : main env [] = (Ok tt, snd (main env [])))
    by (vm_compute; reflexivity).
  destruct (finished_run_reports_bounded_counts env [] _ Hrun)
    as (m & tr1 & Htr & Hk).
  exists m, tr1. split; [exact Htr|exact (proj1 (Hk "heb"))].
Defined.

(** An exception raised by the reconstruction of an entry, seen from the
    run. *)
Lemma reconstruct_failure_run (env : Env) (pre post : list string)
  (original_path : string) (subtitles_map : list (string * Z))
  (tr tr1 : trace) (e : exn) :
  isfile env (ORIGINAL_NAMES_LOG env) = true ->
  isdir env MEDIA_ROOT_PATH = true ->
  LogWindow.read_window RESULTS_LIMIT (read_text env (ORIGINAL_NAMES_LOG env))
  = (pre ++ original_path :: post)%list ->
  process_entries env pre [] (tr ++ startup_events)%list
  = (Ok subtitles_map, tr1) ->
  reconstruct env original_path = Raise e ->
  main env tr
  = (Raise e, (tr1 ++ [LogException "Critical exception occurred!" e])%list).
Proof.
  intros Hlog Hroot Hwindow Hpre Hrec.
  rewrite main_running by assumption.
  rewrite Hwindow, process_entries_app.
  unfold bind at 1. rewrite Hpre.
  cbn [process_entries]. unfold bind at 1.
  unfold process_entry. unfold bind at 1. unfold lift.
  rewrite Hrec. reflexivity.
Qed.

(** X10.  Whatever exception the reconstruction of an entry raises, the run
    logs it as a critical exception and raises the same exception again:
    the entries after it are not processed and no summary is logged. *)
Theorem entry_failure_aborts_run (env : Env) (pre post : list string)
  (original_path : string) (subtitles_map : list (string * Z))
  (tr tr1 : trace) (e : exn) :
  isfile env (ORIGINAL_NAMES_LOG env) = true ->
  isdir env MEDIA_ROOT_PATH = true ->
  LogWindow.read_window RESULTS_LIMIT (read_text env (ORIGINAL_NAMES_LOG env))
  = (pre ++ original_path :: post)%list ->
  process_entries env pre [] (tr ++ startup_events)%list
  = (Ok subtitles_map, tr1) ->
  reconstruct env original_path = Raise e ->
  main env tr
  = (Raise e, (tr1 ++ [LogException "Critical exception occurred!" e])%list).
Proof. apply reconstruct_failure_run. Qed.

Lemma entry_failure_aborts_run_witness :
  main (Samples.env [Samples.names_log] Samples.nl [] None None) []
  = (Raise AttributeError,
     (startup_events
      ++ [LogException "Critical exception occurred!" AttributeError])%list).
Proof.
  apply (entry_failure_aborts_run
           (Samples.env [Samples.names_log] Samples.nl [] None None)
           [] [] Samples.blank_entry [] [] startup_events AttributeError);
    vm_compute; reflexivity.
Defined.

(** X11.  An entry with an episode number and no season stops the run:
    ['{:02}'.format(None)] on line 158 raises [TypeError], which is logged
    as critical and raised again; the entries after it are not processed. *)
Theorem episode_without_season_aborts_run (env : Env)
  (pre post : list string) (original_path t : string)
  (subtitles_map : list (string * Z)) (tr tr1 : trace) :
  isfile env (ORIGINAL_NAMES_LOG env) = true ->
  isdir env MEDIA_ROOT_PATH = true ->
  LogWindow.read_window RESULTS_LIMIT (read_text env (ORIGINAL_NAMES_LOG env))
  = (pre ++ original_path :: post)%list ->
  process_entries env pre [] (tr ++ startup_events)%list
  = (Ok subtitles_map, tr1) ->
  truthy_opt truthy_int (g_episode (guessit env original_path)) = true ->
  g_season (guessit env original_path) = None ->
  format_show env (g_title (guessit env original_path)) = Ok t ->
  reconstruct env original_path = Raise TypeError
  /\ main env tr
     = (Raise TypeError,
        (tr1 ++ [LogException "Critical exception occurred!" TypeError])%list).
Proof.
  intros Hlog Hroot Hwindow Hpre He Hs Ht.
  assert (Hrec : reconstruct env original_path = Raise TypeError)
    by (unfold reconstruct; now rewrite He, Hs, Ht).
  split; [exact Hrec|].
  now apply (reconstruct_failure_run env pre post original_path subtitles_map).
Qed.

Lemma episode_without_season_aborts_run_witness :
  main (Samples.with_guessit
          (Samples.env [Samples.names_log] "/downloads/Show.E05.mkv" []
             None None)
          Samples.guess_no_season) []
  = (Raise TypeError,
     (startup_events
      ++ [LogException "Critical exception occurred!" TypeError])%list).
Proof.
  apply (episode_without_season_aborts_run
           (Samples.with_guessit
              (Samples.env [Samples.names_log] "/downloads/Show.E05.mkv" []
                 None None)
              Samples.guess_no_season)
           [] [] "/downloads/Show.E05.mkv" "Show" [] [] startup_events);
    vm_compute; reflexivity.
Defined.

(** X12.  With an empty names file the run processes nothing and ends with
    the summary of no results. *)
Theorem empty_names_file_run (env : Env) (tr : trace) :
  isfile env (ORIGINAL_NAMES_LOG env) = true ->
  isdir env MEDIA_ROOT_PATH = true ->
  read_text env (ORIGINAL_NAMES_LOG env) = [] ->
  main env tr
  = (Ok tt,
     (tr ++ startup_events ++ [Log INFO "All done! The results are: "])%list).
Proof.
  intros Hlog Hroot Hempty.
  rewrite main_running by assumption. rewrite Hempty.
  cbn. now rewrite <- app_assoc.
Qed.

Lemma empty_names_file_run_witness :
  main (Samples.env [Samples.names_log] "" [] None None) []
  = (Ok tt, (startup_events ++ [Log INFO "All done! The results are: "])%list).
Proof.
  apply (empty_names_file_run (Samples.env [Samples.names_log] "" [] None None)
           []); reflexivity.
Defined.

End RunFacts.

(** ** The window, once more (lines 136-144) *)

Section WindowEdges.
Import Py Text LogWindow.

Lemma rstrip_cons (c : Z) (r : text) :
  rstrip (c :: r)
  = match rstrip r with
    | [] => if is_space c then [] else [c]
    | r' => c :: r'
    end.
Proof. reflexivity. Qed.

(** What [rstrip] removes is white space at the end, and what it leaves
    does not end with white space. *)
Lemma rstrip_spec (s : text) :
  exists post,
    s = (rstrip s ++ post)%list
    /\ forallb is_space post = true
    /\ forall init c, rstrip s = (init ++ [c])%list -> is_space c = false.
Proof.
  induction s as [|c r (post & Hcat & Hpost & Hlast)].
  - exists []. repeat split; auto. intros [|? ?] ? H; discriminate H.
  - rewrite rstrip_cons. destruct (rstrip r) as [|d r'] eqn:Hr.
    + destruct (is_space c) eqn:Hc.
      * exists (c :: r). cbn [app forallb]. rewrite Hc.
        cbn [app] in Hcat. subst post.
        repeat split; auto.
      * exists post. cbn [app] in *. subst post.
        repeat split; auto.
        intros [|a init] c0 H.
        -- injection H as <-. exact Hc.
        -- destruct init; discriminate H.
    + exists post. repeat split; auto.
      * cbn [app]. now rewrite Hcat at 1.
      * intros [|a init] c0 H; [discriminate H|].
        injection H as _ H. now apply (Hlast init).
Qed.

(** What [lstrip] removes is white space at the start, and what it leaves
    does not start with white space. *)
Lemma lstrip_spec (s : text) :
  exists pre,
    s = (pre ++ lstrip s)%list
    /\ forallb is_space pre = true
    /\ forall c rest, lstrip s = c :: rest -> is_space c = false.
Proof.
  induction s as [|c r (pre & Hcat & Hpre & Hfirst)].
  - exists []. repeat split; auto. intros ? ? H; discriminate H.
  - cbn [lstrip]. destruct (is_space c) eqn:Hc.
    + exists (c :: pre). cbn [app forallb]. rewrite Hc.
      repeat split; auto. now rewrite Hcat at 1.
    + exists []. repeat split; auto.
      intros c0 rest H. injection H as <- _. exact Hc.
Qed.

Lemma strip_spec (line : text) :
  exists pre post,
    line = (pre ++ strip line ++ post)%list
    /\ forallb is_space pre = true
    /\ forallb is_space post = true
    /\ (forall c rest, strip line = c :: rest -> is_space c = false)
    /\ (forall init c, strip line = (init ++ [c])%list -> is_space c = false).
Proof.
  destruct (rstrip_spec line) as (post & Hr & Hpost & Hlast).
  destruct (lstrip_spec (rstrip line)) as (pre & Hl & Hpre & Hfirst).
  exists pre, post. unfold strip. repeat split; auto.
  - rewrite app_assoc, <- Hl. exact Hr.
  - intros init c H. apply (Hlast (pre ++ init)%list).
    rewrite Hl at 1. rewrite H. now rewrite app_assoc.
Qed.

Lemma in_firstn {A} (n : nat) (l : list A) (x : A) :
  In x (firstn n l) -> In x l.
Proof.
  revert l; induction n as [|n IH]; intros [|a l]; simpl; try tauto.
  intros [H|H]; auto.
Qed.

(** X13.  Every entry of the window comes from a line of the file by
    taking white space, and nothing else, off both ends until none is left
    there: the line is a run of white space, the entry's text, and a run
    of white space, and the entry's text neither starts nor ends with
    white space.  White space is what [str.isspace] says it is. *)
Theorem window_entries_stripped (limit : option Z) (content : text)
  (entry : string) :
  In entry (read_window limit content) ->
  exists line pre stripped post,
    In line (file_lines content)
    /\ line = (pre ++ stripped ++ post)%list
    /\ forallb is_space pre = true
    /\ forallb is_space post = true
    /\ (forall c rest, stripped = c :: rest -> is_space c = false)
    /\ (forall init c, stripped = (init ++ [c])%list -> is_space c = false)
    /\ entry = utf8_encode stripped.
Proof.
  rewrite read_window_is_window. intros Hin.
  assert (Hrev : In entry (rev (map entry_of (file_lines content)))).
  { unfold window in Hin. destruct limit as [n|]; [|exact Hin].
    destruct (n =? 0); [exact Hin|]. eapply in_firstn; eassumption. }
  apply in_rev, in_map_iff in Hrev. destruct Hrev as (line & <- & Hline).
  destruct (strip_spec line) as (pre & post & Hcat & Hpre & Hpost & Hf & Hl).
  exists line, pre, (strip line), post.
  repeat split; auto.
Qed.

Lemma window_entries_stripped_witness :
  exists line pre stripped post,
    In line (file_lines Samples.unicode_blanks)
    /\ line = (pre ++ stripped ++ post)%list
    /\ forallb is_space pre = true
    /\ forallb is_space post = true
    /\ "/a.mkv" = utf8_encode stripped.
Proof.
  destruct (window_entries_stripped None Samples.unicode_blanks "/a.mkv")
    as (line & pre & stripped & post & H1 & H2 & H3 & H4 & _ & _ & H7).
  - vm_compute. tauto.
  - exists line, pre, stripped, post. repeat split; assumption.
Defined.

(** X14.  A limit below zero empties the window: every line is put in
    front and dropped again at once. *)
Theorem negative_limit_empties_window (n : Z) (content : text) :
  n < 0 -> read_window (Some n) content = [].
Proof.
  intros Hn. rewrite read_window_is_window. unfold window.
  destruct (Z.eqb_spec n 0); [lia|].
  replace (Z.to_nat n) with 0%nat by lia. reflexivity.
Qed.

Lemma negative_limit_empties_window_witness :
  read_window (Some (-1)) Samples.three_lines = [].
Proof. apply negative_limit_empties_window. lia. Defined.

Lemma append_empty_r (s : string) : s ++ "" = s.
Proof. induction s as [|c s IH]; simpl; [reflexivity|now rewrite IH]. Qed.

Lemma universal_newlines_cons (c : Z) (rest : text) :
  universal_newlines (c :: rest)
  = if c =? CR then
      LF :: match rest with
            | d :: rest' =>
                if d =? LF then universal_newlines rest'
                else universal_newlines rest
            | [] => []
            end
    else c :: universal_newlines rest.
Proof. reflexivity. Qed.

Lemma well_cut_newline : well_cut [LF].
Proof.
  exists []. split; [left; reflexivity|]. split; intros [].
Qed.

Lemma file_lines_cut (n : nat) :
  forall content, (List.length content <= n)%nat ->
    List.concat (file_lines content) = universal_newlines content
    /\ forall line, In line (file_lines content) -> well_cut line.
Proof.
  induction n as [|n IH]; intros content Hlen.
  - destruct content; [|cbn in Hlen; lia].
    split; [reflexivity|intros ? []].
  - destruct content as [|c rest]; [split; [reflexivity|intros ? []]|].
    cbn [List.length] in Hlen.
    destruct (IH rest ltac:(lia)) as [IHcat IHcut].
    rewrite file_lines_cons, universal_newlines_cons.
    destruct (Z.eqb_spec c LF) as [->|Hlf].
    + cbn [Z.eqb LF CR Pos.eqb]. split.
      * cbn [List.concat app]. now rewrite IHcat.
      * intros line [<-|H]; [apply well_cut_newline|auto].
    + destruct (Z.eqb_spec c CR) as [->|Hcr].
      * destruct rest as [|d rest'].
        -- split; [reflexivity|].
           intros line [<-|[]]. apply well_cut_newline.
        -- cbn [List.length] in Hlen.
           destruct (IH rest' ltac:(lia)) as [IHcat' IHcut'].
           destruct (d =? LF); split.
           ++ cbn [List.concat app]. now rewrite IHcat'.
           ++ intros line [<-|H]; [apply well_cut_newline|auto].
           ++ cbn [List.concat app]. now rewrite IHcat.
           ++ intros line [<-|H]; [apply well_cut_newline|auto].
      * destruct (file_lines rest) as [|l ls] eqn:E.
        -- split.
           ++ cbn [List.concat app] in *. now rewrite <- IHcat.
           ++ intros line [<-|[]]. exists [c].
              split; [right; split; [reflexivity|discriminate]|].
              split; intros [H|[]]; congruence.
        -- split.
           ++ cbn [List.concat app] in *. now rewrite IHcat.
           ++ intros line [<-|H]; [|apply IHcut; now right].
              destruct (IHcut l (or_introl eq_refl))
                as (body & Hbody & Hnlf & Hncr).
              exists (c :: body). split.
              ** destruct Hbody as [->|[-> Hne]];
                   [left; reflexivity|right; split; [reflexivity|discriminate]].
              ** split; intros [H|H]; try congruence; auto.
Qed.

(** X15.  The lines the loop is handed, put together again, are the text
    of the file with each carriage return, alone or before a line feed,
    read as a line feed.  Each line is cut after a line feed: it is not
    empty, a line feed stands only at its end and it holds no carriage
    return.  So an empty line inside the file is a line holding a line
    feed, and the loop's [while line != ''] ends at the end of the file
    and nowhere before. *)
Theorem file_lines_cover_file (content : text) :
  List.concat (file_lines content) = universal_newlines content
  /\ forall line, In line (file_lines content) -> well_cut line.
Proof. apply (file_lines_cut (List.length content)). lia. Qed.

Lemma file_lines_cover_file_witness :
  List.concat (file_lines Samples.mixed_line_ends)
  = Text.of_ascii ("/a.mkv" ++ Samples.nl ++ "/b.mkv" ++ Samples.nl
                   ++ "/c.mkv" ++ Samples.nl)
  /\ well_cut (Text.of_ascii ("/b.mkv" ++ Samples.nl)).
Proof.
  destruct (file_lines_cover_file Samples.mixed_line_ends) as [Hcat Hcut].
  split; [rewrite Hcat; reflexivity|].
  apply Hcut. vm_compute. tauto.
Defined.

End WindowEdges.

(** ** The counters (lines 131 and 180) *)

Section CounterFacts.
Import Py Eff SubtitlesMonitor.

Lemma keys_increment (key : string) (subtitles_map : list (string * Z)) :
  keys (increment key subtitles_map)
  = if existsb (fun k => (k =? key)%string) (keys subtitles_map)
    then keys subtitles_map
    else (keys subtitles_map ++ [key])%list.
Proof.
  unfold keys. induction subtitles_map as [|[k n] m IH]; [reflexivity|].
  simpl. destruct (k =? key)%string; simpl; [reflexivity|].
  rewrite IH. now destruct (existsb _ (map fst m)).
Qed.

(** X16.  Counting a language adds one to its count, a count that starts at
    zero for a language not seen before; it leaves every other count as it
    was, keeps the languages in the order in which they were first counted
    and puts a new language last. *)
Theorem increment_counts_one (key : string)
  (subtitles_map : list (string * Z)) :
  count key (increment key subtitles_map) = count key subtitles_map + 1
  /\ (forall k, key <> k ->
        count k (increment key subtitles_map) = count k subtitles_map)
  /\ (In key (keys subtitles_map) ->
      keys (increment key subtitles_map) = keys subtitles_map)
  /\ (~ In key (keys subtitles_map) ->
      count key subtitles_map = 0
      /\ keys (increment key subtitles_map)
         = (keys subtitles_map ++ [key])%list).
Proof.
  split; [apply count_increment|].
  split; [intros k Hk; now apply count_increment_other|].
  rewrite keys_increment.
  destruct (existsb (fun k => (k =? key)%string) (keys subtitles_map)) eqn:E.
  - apply existsb_exists in E. destruct E as (k & Hin & Hk).
    apply String.eqb_eq in Hk. subst k.
    split; [reflexivity|]. intros Hnot. contradiction.
  - split.
    + intros Hin. exfalso.
      assert (existsb (fun k => (k =? key)%string) (keys subtitles_map) = true).
      { apply existsb_exists. exists key. split; [exact Hin|].
        apply String.eqb_refl. }
      congruence.
    + intros Hnot. split; [|reflexivity].
      clear E. unfold keys in Hnot.
      induction subtitles_map as [|[k n] m IH]; [reflexivity|].
      simpl in *. destruct (String.eqb_spec k key) as [->|Hk]; [tauto|].
      apply IH. tauto.
Qed.

Lemma increment_counts_one_witness :
  keys (increment "eng" [("heb", 2)]) = ["heb"; "eng"]
  /\ count "eng" (increment "eng" [("heb", 2)]) = 1.
Proof.
  destruct (increment_counts_one "eng" [("heb", 2)]) as (H1 & _ & _ & H4).
  assert (Hnot : ~ In "eng" (keys [("heb", 2)]))
    by (intros [H|[]]; discriminate H).
  destruct (H4 Hnot) as [H0 Hk].
  split; [exact Hk|]. rewrite H1, H0. reflexivity.
Defined.

End CounterFacts.

(** ** Migration of a file and of a directory (lines 31-63) *)

Section MigrationEdges.
Import Py Eff GDriveMigration.

Ltac flatten := repeat rewrite <- app_assoc; cbn [app].

Lemma prefix_append (p rest : string) : String.prefix p (p ++ rest) = true.
Proof.
  induction p as [|c p IH]; [now destruct rest|].
  simpl. destruct (Ascii.ascii_dec c c) as [_|H]; [exact IH|contradiction].
Qed.

Lemma split_from_skip (sep a : string) :
  forall cur rest,
    split_from sep (String.length a) cur (a ++ rest)
    = split_from sep 0 cur rest.
Proof.
  induction a as [|c a IH]; intros cur rest; [now destruct rest|].
  simpl. apply IH.
Qed.

Lemma split_from_unmatched (sep a tail : string) :
  forall cur,
    no_match_within sep a tail = true ->
    split_from sep 0 cur (a ++ tail) = split_from sep 0 (cur ++ a) tail.
Proof.
  induction a as [|c a IH]; intros cur Hfree.
  - simpl. now rewrite append_empty_r.
  - cbn [no_match_within] in Hfree.
    apply andb_prop in Hfree as [Hhere Hrest].
    apply negb_true_iff in Hhere.
    change (String c a ++ tail) with (String c (a ++ tail)) in *.
    cbn [split_from]. rewrite Hhere, IH by assumption.
    now rewrite append_assoc.
Qed.

Lemma split_from_matched (c : ascii) (sep' cur rest : string) :
  split_from (String c sep') 0 cur (String c sep' ++ rest)
  = cur :: split_from (String c sep') 0 EmptyString rest.
Proof.
  change (String c sep' ++ rest) with (String c (sep' ++ rest)).
  cbn [split_from].
  change (String c (sep' ++ rest)) with (String c sep' ++ rest).
  rewrite prefix_append.
  replace (String.length (String c sep') - 1)%nat with (String.length sep')
    by (simpl; lia).
  now rewrite split_from_skip.
Qed.

(** A text in which the separator does not occur is split into itself. *)
Lemma split_absent (c : ascii) (sep' s : string) :
  occurs (String c sep') s = false -> split (String c sep') s = [s].
Proof.
  unfold occurs, split. intros H. apply negb_false_iff in H.
  rewrite <- (append_empty_r s) at 1.
  rewrite split_from_unmatched by assumption. reflexivity.
Qed.

(** A text split at the first place where the separator matches. *)
Lemma split_first (c : ascii) (sep' a rest : string) :
  no_match_within (String c sep') a (String c sep' ++ rest) = true ->
  split (String c sep') (a ++ String c sep' ++ rest)
  = a :: split (String c sep') rest.
Proof.
  intros H. unfold split.
  rewrite split_from_unmatched by assumption.
  now rewrite split_from_matched.
Qed.

Lemma split_drive_prefix (pre rest : string) :
  no_match_within ACD_PREFIX pre (ACD_PREFIX ++ rest) = true ->
  occurs ACD_PREFIX rest = false ->
  split ACD_PREFIX (pre ++ ACD_PREFIX ++ rest) = [pre; rest].
Proof.
  intros Hpre Hrest.
  change ACD_PREFIX with (String "/" "amazon/Amazon Cloud Drive/") in *.
  rewrite split_first by assumption.
  now rewrite split_absent.
Qed.

(** X17.  A file of the drive that is no [.cloud] placeholder is copied
    with one command, to the remote path it has below the drive's prefix;
    nothing is synced or unsynced. *)
Theorem plain_file_copied (pre rest : string) (tr : trace) :
  let input_path := pre ++ ACD_PREFIX ++ rest in
  endswith ".cloud" input_path = false ->
  no_match_within ACD_PREFIX pre (ACD_PREFIX ++ rest) = true ->
  occurs ACD_PREFIX rest = false ->
  handle_file input_path tr
  = (Ok tt,
     (tr ++ [Log INFO ("Handling file: " ++ input_path);
             Log DEBUG ("Copying file: " ++ input_path);
             Shell (RCLONE_CMD ++ " copyto " ++ dq ++ input_path ++ dq ++ " "
                    ++ dq ++ "GDrive:" ++ rest ++ dq)])%list).
Proof.
  intros input_path Hend Hpre Hrest. subst input_path.
  unfold handle_file, bind, log, emit, lift, ret.
  rewrite Hend. cbn [fst snd].
  rewrite split_drive_prefix by assumption.
  cbn [index item nth_error]. flatten. reflexivity.
Qed.

Lemma plain_file_copied_witness :
  snd (handle_file "/amazon/Amazon Cloud Drive/Movies/a.mkv" [])
  = [Log INFO "Handling file: /amazon/Amazon Cloud Drive/Movies/a.mkv";
     Log DEBUG "Copying file: /amazon/Amazon Cloud Drive/Movies/a.mkv";
     Shell (RCLONE_CMD ++ " copyto " ++ dq
            ++ "/amazon/Amazon Cloud Drive/Movies/a.mkv" ++ dq ++ " "
            ++ dq ++ "GDrive:Movies/a.mkv" ++ dq)].
Proof.
  exact (f_equal snd
           (plain_file_copied "" "Movies/a.mkv" [] eq_refl eq_refl eq_refl)).
Defined.

(** X18.  For a path that ends with [.cloud] the script syncs the
    placeholder, then copies and unsyncs the path cut at the first
    [.cloud] in it; when [.cloud] occurs only as the ending, that is the
    path without the ending.  The three commands run in this order. *)
Theorem cloud_file_synced_copied_unsynced (pre rest after : string)
  (tr : trace) :
  let path := pre ++ ACD_PREFIX ++ rest in
  let input_path := path ++ ".cloud" ++ after in
  endswith ".cloud" input_path = true ->
  no_match_within ".cloud" path (".cloud" ++ after) = true ->
  no_match_within ACD_PREFIX pre (ACD_PREFIX ++ rest) = true ->
  occurs ACD_PREFIX rest = false ->
  handle_file input_path tr
  = (Ok tt,
     (tr ++ [Log INFO ("Handling file: " ++ input_path);
             Log DEBUG ("Syncing file: " ++ input_path);
             Shell (ODRIVE_CMD ++ " sync " ++ dq ++ input_path ++ dq);
             Log DEBUG ("Copying file: " ++ path);
             Shell (RCLONE_CMD ++ " copyto " ++ dq ++ path ++ dq ++ " "
                    ++ dq ++ "GDrive:" ++ rest ++ dq);
             Log DEBUG ("Unsyncing file: " ++ path);
             Shell (ODRIVE_CMD ++ " unsync " ++ dq ++ path ++ dq)])%list).
Proof.
  intros path input_path Hend Hcloud Hpre Hrest.
  pose proof (split_first "." "cloud" path after Hcloud) as Hsplit.
  change (String "." "cloud") with ".cloud" in Hsplit.
  fold input_path in Hsplit.
  unfold handle_file, bind, log, emit, lift, ret.
  rewrite Hend, Hsplit.
  cbn [index item nth_error fst snd].
  pose proof (split_drive_prefix pre rest Hpre Hrest) as Hdrive.
  fold path in Hdrive. rewrite Hdrive.
  cbn [index item nth_error]. flatten. reflexivity.
Qed.

Lemma cloud_file_synced_copied_unsynced_witness :
  snd (handle_file "/amazon/Amazon Cloud Drive/Movies/a.mkv.cloud" [])
  = [Log INFO "Handling file: /amazon/Amazon Cloud Drive/Movies/a.mkv.cloud";
     Log DEBUG "Syncing file: /amazon/Amazon Cloud Drive/Movies/a.mkv.cloud";
     Shell (ODRIVE_CMD ++ " sync " ++ dq
            ++ "/amazon/Amazon Cloud Drive/Movies/a.mkv.cloud" ++ dq);
     Log DEBUG "Copying file: /amazon/Amazon Cloud Drive/Movies/a.mkv";
     Shell (RCLONE_CMD ++ " copyto " ++ dq
            ++ "/amazon/Amazon Cloud Drive/Movies/a.mkv" ++ dq ++ " "
            ++ dq ++ "GDrive:Movies/a.mkv" ++ dq);
     Log DEBUG "Unsyncing file: /amazon/Amazon Cloud Drive/Movies/a.mkv";
     Shell (ODRIVE_CMD ++ " unsync " ++ dq
            ++ "/amazon/Amazon Cloud Drive/Movies/a.mkv" ++ dq)]
  /\ fst (handle_file "/amazon/Amazon Cloud Drive/b.cloud.d/c.cloud" [])
     = Ok tt.
Proof.
  split.
  - exact (f_equal snd
             (cloud_file_synced_copied_unsynced "" "Movies/a.mkv" "" []
                eq_refl eq_refl eq_refl eq_refl)).
  - exact (f_equal fst
             (cloud_file_synced_copied_unsynced "" "b" ".d/c.cloud" []
                eq_refl eq_refl eq_refl eq_refl)).
Defined.

(** X19.  A file whose path does not contain the drive's prefix makes
    [handle_file] raise [IndexError] at line 46, before any command is
    run. *)
Theorem file_outside_drive_raises (input_path : string) (tr : trace) :
  endswith ".cloud" input_path = false ->
  occurs ACD_PREFIX input_path = false ->
  handle_file input_path tr
  = (Raise IndexError,
     (tr ++ [Log INFO ("Handling file: " ++ input_path);
             Log DEBUG ("Copying file: " ++ input_path)])%list).
Proof.
  intros Hend Habsent.
  unfold handle_file, bind, log, emit, lift, ret.
  rewrite Hend. cbn [fst snd].
  change ACD_PREFIX with (String "/" "amazon/Amazon Cloud Drive/") in *.
  rewrite split_absent by assumption.
  cbn [index item nth_error]. flatten. reflexivity.
Qed.

Lemma file_outside_drive_raises_witness :
  handle_file "/data/videos/a.mkv" []
  = (Raise IndexError,
     [Log INFO "Handling file: /data/videos/a.mkv";
      Log DEBUG "Copying file: /data/videos/a.mkv"]).
Proof.
  exact (file_outside_drive_raises "/data/videos/a.mkv" [] eq_refl eq_refl).
Defined.

(** X20.  A [.cloud] placeholder whose path does not contain the drive's
    prefix is synced, and then [handle_file] raises [IndexError] at line
    46: nothing is copied and the file is not unsynced. *)
Theorem placeholder_outside_drive_stays_synced (path after : string)
  (tr : trace) :
  let input_path := path ++ ".cloud" ++ after in
  endswith ".cloud" input_path = true ->
  no_match_within ".cloud" path (".cloud" ++ after) = true ->
  occurs ACD_PREFIX path = false ->
  handle_file input_path tr
  = (Raise IndexError,
     (tr ++ [Log INFO ("Handling file: " ++ input_path);
             Log DEBUG ("Syncing file: " ++ input_path);
             Shell (ODRIVE_CMD ++ " sync " ++ dq ++ input_path ++ dq);
             Log DEBUG ("Copying file: " ++ path)])%list).
Proof.
  intros input_path Hend Hcloud Habsent.
  pose proof (split_first "." "cloud" path after Hcloud) as Hsplit.
  change (String "." "cloud") with ".cloud" in Hsplit.
  fold input_path in Hsplit.
  unfold handle_file, bind, log, emit, lift, ret.
  rewrite Hend, Hsplit.
  cbn [index item nth_error fst snd].
  change ACD_PREFIX with (String "/" "amazon/Amazon Cloud Drive/") in *.
  rewrite split_absent by assumption.
  cbn [index item nth_error]. flatten. reflexivity.
Qed.

Lemma placeholder_outside_drive_stays_synced_witness :
  handle_file "/data/videos/a.mkv.cloud" []
  = (Raise IndexError,
     [Log INFO "Handling file: /data/videos/a.mkv.cloud";
      Log DEBUG "Syncing file: /data/videos/a.mkv.cloud";
      Shell (ODRIVE_CMD ++ " sync " ++ dq ++ "/data/videos/a.mkv.cloud" ++ dq);
      Log DEBUG "Copying file: /data/videos/a.mkv"]).
Proof.
  exact (placeholder_outside_drive_stays_synced "/data/videos/a.mkv" "" []
           eq_refl eq_refl eq_refl).
Defined.

Lemma handle_files_app (root : string) (pre post : list string) :
  forall tr,
    handle_files root (pre ++ post) tr
    = bind (handle_files root pre) (fun _ => handle_files root post) tr.
Proof.
  induction pre as [|f pre IH]; intros tr; [reflexivity|].
  cbn [app handle_files]. unfold bind.
  destruct (handle_file (join2 root f) tr) as [[[]|e] tr1]; [|reflexivity].
  rewrite IH. reflexivity.
Qed.

Lemma handle_walk_app (before after : list (string * list string)) :
  forall tr,
    handle_walk (before ++ after) tr
    = bind (handle_walk before) (fun _ => handle_walk after) tr.
Proof.
  induction before as [|[root files] before IH]; intros tr; [reflexivity|].
  cbn [app handle_walk]. unfold bind, log, emit.
  destruct (handle_files root files _) as [[[]|e] tr1]; [|reflexivity].
  rewrite IH. reflexivity.
Qed.

(** X21.  The migration of a directory is not guarded: when handling one
    file raises, [main] raises the same exception at once, and the files
    and directories that come later in the walk are not handled. *)
Theorem failed_file_stops_migration (env : Env) (program arg : string)
  (before after : list (string * list string)) (root f : string)
  (pre post : list string) (tr tr0 tr1 tr2 : trace) (e : exn) :
  argv env = [program; arg] ->
  isfile env (abspath env arg) = false ->
  isdir env (abspath env arg) = true ->
  walk env (abspath env arg)
  = (before ++ (root, (pre ++ f :: post)%list) :: after)%list ->
  handle_walk before tr = (Ok tt, tr0) ->
  handle_files root pre (tr0 ++ [Log INFO ("Handling dir: " ++ root)])%list
  = (Ok tt, tr1) ->
  handle_file (join2 root f) tr1 = (Raise e, tr2) ->
  main env tr = (Raise e, tr2).
Proof.
  intros Hargv Hfile Hdir Hwalk Hbefore Hpre Hf.
  unfold main. rewrite Hargv, Hfile, Hdir.
  unfold handle_dir. rewrite Hwalk, handle_walk_app.
  unfold bind at 1. rewrite Hbefore.
  cbn [handle_walk]. unfold bind at 1. unfold log, emit.
  unfold bind at 1. rewrite handle_files_app.
  unfold bind at 1. rewrite Hpre.
  cbn [handle_files]. unfold bind at 1. rewrite Hf. reflexivity.
Qed.

Lemma failed_file_stops_migration_witness :
  main (Samples.migration_tree "/data/videos" ["a.mkv"; "b.mkv"]) []
  = (Raise IndexError,
     [Log INFO "Handling dir: /data/videos";
      Log INFO "Handling file: /data/videos/a.mkv";
      Log DEBUG "Copying file: /data/videos/a.mkv"]).
Proof.
  apply (failed_file_stops_migration
           (Samples.migration_tree "/data/videos" ["a.mkv"; "b.mkv"])
           "gdrive_migration.py" "/data/videos" [] [] "/data/videos" "a.mkv"
           [] ["b.mkv"] [] [] [Log INFO "Handling dir: /data/videos"]);
    reflexivity.
Defined.

End MigrationEdges.

(** ** Where subtitles are saved (lines 98-99) *)

Section ScratchFacts.
Import Py Eff SubtitlesMonitor.

Lemma substring_all (s : string) : substring 0 (String.length s) s = s.
Proof. induction s as [|c s IH]; simpl; [reflexivity|now rewrite IH]. Qed.

(** What follows the last separator holds no separator. *)
Lemma rfind_from_last (s : string) :
  forall i, 0 <= i ->
    let j := rfind_from i slash s in
    (j = -1 /\ mem_char slash s = false)
    \/ (i <= j
        /\ mem_char slash
             (substring (S (Z.to_nat (j - i)))
                (String.length s - S (Z.to_nat (j - i))) s) = false).
Proof.
  induction s as [|d r IH]; intros i Hi; [left; split; reflexivity|].
  cbn [rfind_from].
  destruct (IH (i + 1) ltac:(lia)) as [[Hj Hmem]|[Hj Hmem]].
  - rewrite Hj. cbn [Z.leb Z.compare].
    destruct (Ascii.eqb_spec d slash) as [->|Hd].
    + right. split; [lia|].
      replace (Z.to_nat (i - i)) with 0%nat by lia.
      change (substring 1 (String.length (String slash r) - 1) (String slash r))
        with (substring 0 (String.length r - 0) r).
      now rewrite Nat.sub_0_r, substring_all.
    + left. split; [reflexivity|].
      cbn [mem_char]. rewrite Hmem.
      destruct (Ascii.eqb_spec slash d) as [E|_]; [symmetry in E; contradiction|].
      reflexivity.
  - set (j := rfind_from (i + 1) slash r) in *.
    destruct (Z.leb_spec 0 j); [|lia].
    right. split; [lia|].
    replace (Z.to_nat (j - i)) with (S (Z.to_nat (j - (i + 1)))) by lia.
    exact Hmem.
Qed.

Lemma basename_no_separator (p : string) :
  mem_char slash (basename p) = false.
Proof.
  unfold basename, slice_from, rfind.
  destruct (rfind_from_last p 0 ltac:(lia)) as [[Hj Hmem]|[Hj Hmem]].
  - rewrite Hj. cbn [Z.add Z.to_nat]. rewrite Nat.sub_0_r.
    now rewrite substring_all.
  - set (j := rfind_from 0 slash p) in *.
    replace (Z.to_nat (j + 1)) with (S (Z.to_nat (j - 0))) by lia.
    exact Hmem.
Qed.

(** X22.  Whatever path the library proposes for a subtitle, its content is
    saved directly in [/tmp]: the path written is [/tmp/] followed by a
    name that holds no separator. *)
Theorem scratch_path_in_tmp (env : Env) (video : Video) (subtitle : Subtitle) :
  exists name,
    scratch_path env video subtitle = "/tmp/" ++ name
    /\ mem_char slash name = false
    /\ name = basename (get_subtitle_path env (video_name video)
                          (sub_language subtitle)).
Proof.
  eexists. split; [|split; [|reflexivity]].
  - unfold scratch_path. cbn [path_join fold_left].
    set (name := basename _).
    pose proof (basename_no_separator
                  (get_subtitle_path env (video_name video)
                     (sub_language subtitle))) as Hname.
    fold name in Hname.
    unfold join2. destruct name as [|c name]; [reflexivity|].
    rewrite startswith_slash_cons.
    cbn [mem_char] in Hname. apply orb_false_iff in Hname as [Hc _].
    destruct (Ascii.eqb_spec c slash) as [->|_]; [discriminate Hc|].
    reflexivity.
  - apply basename_no_separator.
Qed.

(** X23.  When the video is on disk without either subtitles file and the
    provider delivers content for both languages that is saved and
    uploaded, Hebrew is handled before English, Hebrew with its two
    providers and English with all of them, and both counts go up by
    one. *)
Theorem both_languages_acquired (env : Env)
  (original_path current_path : string) (video : Video)
  (values_he values_en : list (list Subtitle)) (sub_he sub_en : Subtitle)
  (content_he content_en : string)
  (subtitles_map : list (string * Z)) (tr : trace) :
  reconstruct env original_path = Ok current_path ->
  isfile env current_path = true ->
  isfile env (fst (splitext current_path) ++ ".he.srt") = false ->
  isfile env (fst (splitext current_path) ++ ".en.srt") = false ->
  fromguess env current_path (guessit env original_path) = Ok video ->
  download_best_subtitles env video heb (Some ["thewiz"; "subscenter"])
  = Ok values_he ->
  download_best_subtitles env video eng None = Ok values_en ->
  best_subtitle values_he = Some sub_he ->
  best_subtitle values_en = Some sub_en ->
  sub_content sub_he = Some content_he ->
  sub_content sub_en = Some content_en ->
  let path_he := scratch_path env video sub_he in
  let path_en := scratch_path env video sub_en in
  write_bytes env path_he content_he = None ->
  write_bytes env path_en content_en = None ->
  upload_file env path_he = None ->
  upload_file env path_en = None ->
  process_entry env original_path subtitles_map tr
  = (Ok (increment "eng" (increment "heb" subtitles_map)),
     (tr ++ [Log INFO ("Checking subtitles for: " ++ current_path)]
         ++ search_events original_path heb video
         ++ saving_events sub_he path_he content_he
         ++ [Log INFO ("Uploading " ++ path_he); Upload path_he]
         ++ search_events original_path eng video
         ++ saving_events sub_en path_en content_en
         ++ [Log INFO ("Uploading " ++ path_en); Upload path_en])%list).
Proof.
  intros Hrec Hfile Hhe Hen Hvideo Hdl_he Hdl_en Hbest_he Hbest_en
    Hc_he Hc_en path_he path_en Hw_he Hw_en Hu_he Hu_en.
  unfold process_entry. unfold bind at 1. unfold lift.
  rewrite Hrec, Hfile. unfold bind at 1. unfold log at 1, emit at 1.
  unfold bind at 1. rewrite find_gaps_configured.
  change (fst (splitext current_path) ++ ".he" ++ SUBTITLES_EXTENSION)
    with (fst (splitext current_path) ++ ".he.srt").
  change (fst (splitext current_path) ++ ".en" ++ SUBTITLES_EXTENSION)
    with (fst (splitext current_path) ++ ".en.srt").
  rewrite Hhe, Hen. cbn [app download_missing].
  unfold bind at 1.
  rewrite (saved_and_uploaded env original_path current_path heb video
             values_he sub_he content_he _
             Hvideo Hdl_he Hbest_he Hc_he Hw_he Hu_he).
  cbn [truthy_opt]. rewrite scratch_path_truthy.
  unfold bind at 1.
  rewrite (saved_and_uploaded env original_path current_path eng video
             values_en sub_en content_en _
             Hvideo Hdl_en Hbest_en Hc_en Hw_en Hu_en).
  cbn [truthy_opt]. rewrite scratch_path_truthy.
  unfold ret. fold path_he path_en.
  repeat rewrite <- app_assoc. reflexivity.
Qed.

Lemma both_languages_acquired_witness :
  fst (process_entry
         (Samples.env [Samples.movie_current] ""
            [[Samples.hebrew_subtitle (Some "1")]] None None)
         Samples.movie_original [("heb", 1)] [])
  = Ok [("heb", 2); ("eng", 1)].
Proof.
  exact (f_equal fst
           (both_languages_acquired
              (Samples.env [Samples.movie_current] ""
                 [[Samples.hebrew_subtitle (Some "1")]] None None)
              Samples.movie_original Samples.movie_current
              (mkVideo Samples.movie_current)
              [[Samples.hebrew_subtitle (Some "1")]]
              [[Samples.hebrew_subtitle (Some "1")]]
              (Samples.hebrew_subtitle (Some "1"))
              (Samples.hebrew_subtitle (Some "1")) "1" "1" [("heb", 1)] []
              eq_refl eq_refl eq_refl eq_refl eq_refl eq_refl eq_refl
              eq_refl eq_refl eq_refl eq_refl eq_refl eq_refl eq_refl
              eq_refl)).
Defined.

Lemma scratch_path_in_tmp_example :
  scratch_path (Samples.env [] "" [] None None)
    (mkVideo Samples.movie_current) (Samples.hebrew_subtitle None)
  = "/tmp/Some Movie (2019).he.srt".
Proof. reflexivity. Qed.

End ScratchFacts.
